(** * 3D QR code generator: geometry synthesis, STL export and Wi-Fi payload

    A shallow embedding of [src/main.ts] (and of the older [main.js] where the
    two differ) together with the properties its specification states.

    Conventions of the embedding:
    - a JavaScript [number] is an exact rational ([Q]); equalities between
      computed coordinates are therefore stated with [==] ([Qeq]).  Rounding of
      IEEE-754 doubles, [NaN] and the infinities are not modelled;
    - loop counters and the grid size are natural numbers;
    - objects that the code shares by reference (the [THREE.Group] held both by
      [this.scene] and by [this.qrGroup]) live in a store indexed by reference;
    - a method of [ThreeDScene] is a function in the monad [M], which threads
      the object's fields and records a thrown exception together with the
      state at the moment of the throw. *)

From Stdlib Require Import ZArith QArith Lqa Lia List String.
From coqutil Require Import Byte Word.LittleEndianList.
From stdpp Require Import base option gmap.
Import ListNotations.

(** ** Constants of [main.ts] *)

Definition barcodeSizeMm : Q := 80.
Definition baseThicknessMm : Q := 5.
Definition qrThicknessMm : Q := 2.
Definition qrBorderMm : Q := 5.

(** The injection of a loop counter into the numbers. *)
Definition num (n : nat) : Q := inject_Z (Z.of_nat n).

(** ** The encoder's result, as [drawBarcode] uses it

    [qr.size] and [qr.getModule(x, y)] are the only members read. *)
Module QrCode.
Record t : Type := Build { size : nat; getModule : nat -> nat -> bool }.
End QrCode.

(** ** The parts of three.js the scene is built from *)
Module THREE.

Record Vector3 : Type := Vec3 { x : Q; y : Q; z : Q }.

(** [new THREE.BoxGeometry(width, height, depth)]: extents along x, y and z. *)
Record BoxGeometry : Type := Box { width : Q; height : Q; depth : Q }.

(** [new THREE.MeshPhongMaterial({ color })]. *)
Record MeshPhongMaterial : Type := Phong { color : Z }.

(** [new THREE.Mesh(geometry, material)] after [position.set]. *)
Record Mesh : Type := MkMesh {
  geometry : BoxGeometry;
  material : MeshPhongMaterial;
  position : Vector3
}.

(** A reference to a [THREE.Group] object. *)
Definition ref : Type := nat.

(** What [this.scene] holds: the point light and references to groups. *)
Inductive Object3D : Type :=
| PointLight (position : Vector3)
| Group (r : ref).

End THREE.

(** ** Exceptions *)
Inductive JsError : Type :=
| RangeError (message : string)
| Error (message : string).

(** ** The state of a [ThreeDScene] object

    [groups] is the store of every [THREE.Group] allocated so far with its
    children in insertion order; [scene] lists the children of [this.scene];
    [qrGroup] is the field of that name.  Camera, renderer and controls take no
    part in the geometry and are left out. *)
Record ThreeDScene : Type := MkScene {
  groups : gmap THREE.ref (list THREE.Mesh);
  scene : list THREE.Object3D;
  qrGroup : THREE.ref
}.

(** ** The monad of methods: state and exceptions *)
Inductive Result (A : Type) : Type :=
| Return (a : A) (st : ThreeDScene)
| Throw (e : JsError) (st : ThreeDScene).
Arguments Return {A} a st.
Arguments Throw {A} e st.

Definition M (A : Type) : Type := ThreeDScene -> Result A.

#[global] Instance M_ret : MRet M := fun A a st => Return a st.
#[global] Instance M_bind : MBind M := fun A B f c st =>
  match c st with
  | Return a st' => f a st'
  | Throw e st' => Throw e st'
  end.

Definition throw {A : Type} (e : JsError) : M A := fun st => Throw e st.

(** [for (let i = start; i < start + count; i++) body(i)]. *)
Fixpoint for_loop (start count : nat) (body : nat -> M unit) : M unit :=
  match count with
  | O => mret tt
  | S count' => body start ;; for_loop (S start) count' body
  end.

(** *** Primitive operations on the store and the scene *)

(** [new THREE.Group()]: a fresh reference with no children. *)
Definition new_Group : M THREE.ref := fun st =>
  let r := fresh (dom (groups st)) in
  Return r (MkScene (<[r := []]> (groups st)) (scene st) (qrGroup st)).

(** [group.add(mesh)]: push onto the children of the group referred to. *)
Definition Group_add (r : THREE.ref) (mesh : THREE.Mesh) : M unit := fun st =>
  Return tt (MkScene (alter (fun ch => ch ++ [mesh]) r (groups st)) (scene st) (qrGroup st)).

(** [children.splice(children.indexOf(group), 1)] when the group is a child. *)
Fixpoint remove_child (r : THREE.ref) (children : list THREE.Object3D) : list THREE.Object3D :=
  match children with
  | [] => []
  | THREE.Group r' :: rest =>
      if Nat.eqb r r' then rest else THREE.Group r' :: remove_child r rest
  | o :: rest => o :: remove_child r rest
  end.

(** [this.scene.remove(group)]. *)
Definition scene_remove (r : THREE.ref) : M unit := fun st =>
  Return tt (MkScene (groups st) (remove_child r (scene st)) (qrGroup st)).

(** [this.scene.add(group)] for a group that has no parent yet. *)
Definition scene_add (r : THREE.ref) : M unit := fun st =>
  Return tt (MkScene (groups st) (scene st ++ [THREE.Group r]) (qrGroup st)).

Definition get_qrGroup : M THREE.ref := fun st => Return (qrGroup st) st.
Definition set_qrGroup (r : THREE.ref) : M unit := fun st =>
  Return tt (MkScene (groups st) (scene st) r).

(** ** [class ThreeDScene] *)

(** The constructor: the scene receives the light; [qrGroup] is a new group
    that is not yet a child of the scene. *)
Definition constructor : ThreeDScene :=
  MkScene {[ 0%nat := [] ]}
          [THREE.PointLight (THREE.Vec3 0 0 barcodeSizeMm)]
          0%nat.

Definition drawBarcodeModule (x y size thickness : Q) : M unit :=
  let geometry := THREE.Box size size thickness in
  let material := THREE.Phong 0x404040 in
  let cube := THREE.MkMesh geometry material (THREE.Vec3 x (- y)%Q (thickness / 2)%Q) in
  g ← get_qrGroup; Group_add g cube.

Definition drawBarcodeBackground (height width thickness : Q) : M unit :=
  let geometry := THREE.Box height width thickness in
  let material := THREE.Phong 0xffffff in
  let cube := THREE.MkMesh geometry material (THREE.Vec3 0 0 (- thickness / 2)%Q) in
  g ← get_qrGroup; Group_add g cube.

(** When [qr.size] is 0 the quotient [scale] is never used: the loops do not
    run.  (JavaScript gives [Infinity] there, [Q] gives 0.) *)
Definition drawBarcode (qr : QrCode.t) (border : Q) : M unit :=
  if Qle_bool border 0 then throw (RangeError "Value out of range") else
  old ← get_qrGroup;
  scene_remove old ;;
  g ← new_Group;
  set_qrGroup g ;;
  scene_add g ;;
  let scale := (barcodeSizeMm / num (QrCode.size qr))%Q in
  let barcodeSize := (num (QrCode.size qr) * scale)%Q in
  for_loop 0 (QrCode.size qr) (fun y =>
    for_loop 0 (QrCode.size qr) (fun x =>
      if QrCode.getModule qr x y then
        drawBarcodeModule
          (num x * scale - barcodeSize / 2 + scale / 2)%Q
          (num y * scale - barcodeSize / 2 + scale / 2)%Q
          scale
          qrThicknessMm
      else mret tt)) ;;
  drawBarcodeBackground
    (barcodeSizeMm + border * 2)%Q
    (barcodeSizeMm + border * 2)%Q
    baseThicknessMm.

(** The children of the current [qrGroup]: the solids of the barcode. *)
Definition solids (st : ThreeDScene) : list THREE.Mesh :=
  default [] (groups st !! qrGroup st).

(** Every mesh reachable from [this.scene], in traversal order. *)
Definition scene_meshes (st : ThreeDScene) : list THREE.Mesh :=
  flat_map (fun o => match o with
                     | THREE.Group r => default [] (groups st !! r)
                     | THREE.PointLight _ => []
                     end) (scene st).

(** [exportAsSTL] hands [this.scene] to the exporter, so what is exported is
    determined by [scene_meshes]. *)

(** ** Payload assembly: [getWifiEasyConnectUri] *)

(** The values [FormData.get] can return. *)
Inductive JsValue : Type :=
| JNull
| JString (s : string)
| JFile (name : string).

(** A [FormData] object: its entry list, in order, duplicates allowed. *)
Definition FormData : Type := list (string * JsValue).

(** [data.get(name)]: the first value of that name, or [null]. *)
Fixpoint FormData_get (data : FormData) (name : string) : JsValue :=
  match data with
  | [] => JNull
  | (k, v) :: rest => if String.eqb k name then v else FormData_get rest name
  end.

(** [data.has(name)]. *)
Definition FormData_has (data : FormData) (name : string) : bool :=
  existsb (fun e => String.eqb (fst e) name) data.

(** [data.delete(name)]: every entry of that name goes. *)
Definition FormData_delete (data : FormData) (name : string) : FormData :=
  List.filter (fun e => negb (String.eqb (fst e) name)) data.

(** [data.set(name, value)]: the first entry of that name is replaced and the
    others of that name are removed; with none, the entry is appended. *)
Fixpoint FormData_set (data : FormData) (name : string) (value : JsValue) : FormData :=
  match data with
  | [] => [(name, value)]
  | (k, v) :: rest =>
      if String.eqb k name then (name, value) :: FormData_delete rest name
      else (k, v) :: FormData_set rest name value
  end.

(** Conversion to string inside a template literal. *)
Definition to_string (v : JsValue) : string :=
  match v with
  | JNull => "null"
  | JString s => s
  | JFile _ => "[object File]"
  end.

(** Truthiness: [null] and the empty string are falsy. *)
Definition truthy (v : JsValue) : bool :=
  match v with
  | JNull => false
  | JString s => negb (String.eqb s "")
  | JFile _ => true
  end.

(** [a || b]. *)
Definition js_or (a b : JsValue) : JsValue := if truthy a then a else b.

(** [v !== 'none'] for a literal string on the right. *)
Definition strict_neq_string (v : JsValue) (lit : string) : bool :=
  match v with
  | JString s => negb (String.eqb s lit)
  | _ => true
  end.

(** The array [parts] of [main.ts] when the function returns. *)
Definition wifi_parts (data : FormData) : list string :=
  let parts := [("S:" ++ to_string (FormData_get data "ssid"))%string] in
  let parts :=
    if strict_neq_string (js_or (FormData_get data "security") (JString "none")) "none"
    then (parts ++ [("T:" ++ to_string (FormData_get data "security"))%string])
                ++ [("P:" ++ to_string (FormData_get data "password"))%string]
    else parts in
  let parts :=
    if truthy (FormData_get data "hidden") then parts ++ ["H:true"%string] else parts in
  parts.

(** [main.ts]: the URI is [WIFI:] followed by [parts.join(';')]. *)
Definition getWifiEasyConnectUri (data : FormData) : string :=
  ("WIFI:" ++ String.concat ";" (wifi_parts data))%string.

(** The older [main.js] passes a second argument to [get], which [FormData]
    ignores: the test there is [data.get('security') !== 'none']. *)
Definition wifi_parts_js (data : FormData) : list string :=
  let parts := [("S:" ++ to_string (FormData_get data "ssid"))%string] in
  let parts :=
    if strict_neq_string (FormData_get data "security") "none"
    then (parts ++ [("T:" ++ to_string (FormData_get data "security"))%string])
                ++ [("P:" ++ to_string (FormData_get data "password"))%string]
    else parts in
  let parts :=
    if truthy (FormData_get data "hidden") then parts ++ ["H:true"%string] else parts in
  parts.

Definition getWifiEasyConnectUri_js (data : FormData) : string :=
  ("WIFI:" ++ String.concat ";" (wifi_parts_js data))%string.

(** ** [main]: the encoder and the submit handler

    [qrcodegen.QrCode.encodeText] is an external collaborator: it either
    returns a symbol or throws.  It is a parameter of this section. *)
Inductive Ecc : Type := LOW | MEDIUM | QUARTILE | HIGH.

Section Main.

Variable encodeText : string -> Ecc -> JsError + QrCode.t.

Definition generateQrCode (qrContent : string) : M QrCode.t := fun st =>
  let errCorLvl := LOW in
  match encodeText qrContent errCorLvl with
  | inl e => Throw e st
  | inr qr => Return qr st
  end.

(** The listener of the form's [submit] event, on the entries of the form. *)
Definition onSubmit (form : FormData) : M unit :=
  let data := form in
  let data :=
    if negb (FormData_has data "security")
    then FormData_set data "security" (JString "WPA") else data in
  let content := getWifiEasyConnectUri data in
  qr ← generateQrCode content;
  drawBarcode qr qrBorderMm.

(** [main] on the freshly constructed [ThreeDScene]: the symbol for
    "Hello World" is encoded and drawn.  (The source encodes before it
    constructs; the constructor cannot fail, so the order is immaterial.) *)
Definition main : M unit :=
  qr ← generateQrCode "Hello World";
  drawBarcode qr qrBorderMm.

End Main.

(** ** Binary mesh export *)

Module STL.

Record Triangle : Type := Tri {
  normal : THREE.Vector3;
  v1 : THREE.Vector3;
  v2 : THREE.Vector3;
  v3 : THREE.Vector3
}.

(** Modelled from the spec: the triangulation of a Solid (three.js's
    [BoxGeometry] is not under src/).  Section 4.3: a quadrilateral face is two
    triangles sharing the face normal, wound counter-clockwise seen from
    outside. *)
Definition quad (n a b c d : THREE.Vector3) : list Triangle :=
  [Tri n a b c; Tri n a c d].

(** Modelled from the spec: the 6 faces of a Solid in the canonical order
    -X, +X, -Y, +Y, -Z, +Z of section 4.3 (three.js's [BoxGeometry] is not
    under src/). *)
Definition box_triangles (m : THREE.Mesh) : list Triangle :=
  let c := THREE.position m in
  let g := THREE.geometry m in
  let x0 := (THREE.x c - THREE.width g / 2)%Q in
  let x1 := (THREE.x c + THREE.width g / 2)%Q in
  let y0 := (THREE.y c - THREE.height g / 2)%Q in
  let y1 := (THREE.y c + THREE.height g / 2)%Q in
  let z0 := (THREE.z c - THREE.depth g / 2)%Q in
  let z1 := (THREE.z c + THREE.depth g / 2)%Q in
  quad (THREE.Vec3 (-1) 0 0) (THREE.Vec3 x0 y0 z0) (THREE.Vec3 x0 y0 z1) (THREE.Vec3 x0 y1 z1) (THREE.Vec3 x0 y1 z0) ++
  quad (THREE.Vec3 1 0 0)    (THREE.Vec3 x1 y0 z0) (THREE.Vec3 x1 y1 z0) (THREE.Vec3 x1 y1 z1) (THREE.Vec3 x1 y0 z1) ++
  quad (THREE.Vec3 0 (-1) 0) (THREE.Vec3 x0 y0 z0) (THREE.Vec3 x1 y0 z0) (THREE.Vec3 x1 y0 z1) (THREE.Vec3 x0 y0 z1) ++
  quad (THREE.Vec3 0 1 0)    (THREE.Vec3 x0 y1 z0) (THREE.Vec3 x0 y1 z1) (THREE.Vec3 x1 y1 z1) (THREE.Vec3 x1 y1 z0) ++
  quad (THREE.Vec3 0 0 (-1)) (THREE.Vec3 x0 y0 z0) (THREE.Vec3 x0 y1 z0) (THREE.Vec3 x1 y1 z0) (THREE.Vec3 x1 y0 z0) ++
  quad (THREE.Vec3 0 0 1)    (THREE.Vec3 x0 y0 z1) (THREE.Vec3 x1 y0 z1) (THREE.Vec3 x1 y1 z1) (THREE.Vec3 x0 y1 z1).

Section Serialise.

(** The four bytes of a number as a little-endian IEEE-754 single.  The
    rounding is outside this model; the width of the field is in the type. *)
Variable float32le : Q -> byte * byte * byte * byte.

Definition float_bytes (q : Q) : list byte :=
  let '(b0, b1, b2, b3) := float32le q in [b0; b1; b2; b3].

Definition vector_bytes (v : THREE.Vector3) : list byte :=
  float_bytes (THREE.x v) ++ float_bytes (THREE.y v) ++ float_bytes (THREE.z v).

(** Modelled from the spec: one triangle record of section 4.3, 12 floats
    (the normal, then the three vertices) and 2 reserved zero bytes
    (three.js's [STLExporter] is not under src/). *)
Definition triangle_bytes (t : Triangle) : list byte :=
  vector_bytes (normal t) ++ vector_bytes (v1 t) ++ vector_bytes (v2 t)
    ++ vector_bytes (v3 t) ++ [Byte.x00; Byte.x00].

(** Modelled from the spec: [exporter.parse(scene, { binary: true })] as
    section 4.3 lays the stream out (three.js's [STLExporter] is not under
    src/): an 80-byte zero header, the triangle count as a 4-byte
    little-endian unsigned integer, then the triangle records in emission
    order. *)
Definition parse_binary (meshes : list THREE.Mesh) : list byte :=
  let triangles := flat_map box_triangles meshes in
  repeat Byte.x00 80
    ++ le_split 4 (Z.of_nat (length triangles))
    ++ flat_map triangle_bytes triangles.

(** [exportAsSTL]: the exporter's result for [this.scene] is handed to
    [saveArrayBuffer] under the name 'QR Code.stl'; the scene is not changed. *)
Definition exportAsSTL : M (list byte * string) := fun st =>
  let result := parse_binary (scene_meshes st) in
  Return (result, "QR Code.stl"%string) st.

End Serialise.

(** Reading a stream back: the count field and the records after it. *)
Definition header_count (stream : list byte) : Z :=
  le_combine (firstn 4 (skipn 80 stream)).

Definition record_bytes (stream : list byte) : list byte := skipn 84 stream.

End STL.

(** ** The specification's vocabulary *)

(** A dark module solid and the base plate are told apart by their material. *)
Definition is_dark (m : THREE.Mesh) : bool :=
  Z.eqb (THREE.color (THREE.material m)) 0x404040.

Definition is_base (m : THREE.Mesh) : bool :=
  Z.eqb (THREE.color (THREE.material m)) 0xffffff.


Definition max_z (m : THREE.Mesh) : Q := (THREE.z (THREE.position m) + THREE.depth (THREE.geometry m) / 2)%Q.




(** The number of true-valued modules of a grid, counted row by row. *)
Definition dark_modules (qr : QrCode.t) : nat :=
  sum_list_with
    (fun y => sum_list_with (fun x => if QrCode.getModule qr x y then 1 else 0)%nat
                            (seq 0 (QrCode.size qr)))
    (seq 0 (QrCode.size qr)).

(** The coordinates [(x, y)] of a grid in row-major order: [y] outer, [x] inner. *)
Definition row_major (size : nat) : list (nat * nat) :=
  flat_map (fun y => map (fun x => (x, y)) (seq 0 size)) (seq 0 size).

Definition true_modules (qr : QrCode.t) : list (nat * nat) :=
  List.filter (fun p => QrCode.getModule qr (fst p) (snd p)) (row_major (QrCode.size qr)).




(** ** What [drawBarcode] builds, read off its body *)

(** The mesh [drawBarcodeModule] receives for the module at [(x, y)], with the
    arithmetic exactly as [drawBarcode] writes it. *)
Definition built_module (size : nat) (p : nat * nat) : THREE.Mesh :=
  let scale := (barcodeSizeMm / num size)%Q in
  let barcodeSize := (num size * scale)%Q in
  THREE.MkMesh
    (THREE.Box scale scale qrThicknessMm)
    (THREE.Phong 0x404040)
    (THREE.Vec3 (num (fst p) * scale - barcodeSize / 2 + scale / 2)%Q
                (- (num (snd p) * scale - barcodeSize / 2 + scale / 2))%Q
                (qrThicknessMm / 2)%Q).

(** The mesh [drawBarcodeBackground] adds. *)
Definition built_base (border : Q) : THREE.Mesh :=
  THREE.MkMesh
    (THREE.Box (barcodeSizeMm + border * 2)%Q (barcodeSizeMm + border * 2)%Q baseThicknessMm)
    (THREE.Phong 0xffffff)
    (THREE.Vec3 0 0 (- baseThicknessMm / 2)%Q).

Definition built_solids (qr : QrCode.t) (border : Q) : list THREE.Mesh :=
  map (built_module (QrCode.size qr)) (true_modules qr) ++ [built_base border].

(** Pushing a run of meshes onto a group. *)
Definition push_all (r : THREE.ref) (ms : list THREE.Mesh) (st : ThreeDScene) : ThreeDScene :=
  MkScene (alter (fun ch => ch ++ ms) r (groups st)) (scene st) (qrGroup st).

(** The state a successful [drawBarcode] leaves. *)
Definition drawn (qr : QrCode.t) (border : Q) (st : ThreeDScene) : ThreeDScene :=
  let r := fresh (dom (groups st)) in
  MkScene (<[r := built_solids qr border]> (groups st))
          (remove_child (qrGroup st) (scene st) ++ [THREE.Group r])
          r.

(** ** [drawCanvas]

    The canvas is what the function can observe and change of an
    [HTMLCanvasElement]: its two dimensions, whether [getContext("2d")]
    answers a context, the context's current [fillStyle], and the rectangles
    filled so far, oldest first.  As the function's comment requires, the scale
    and the border are integers. *)
Module Canvas.

Record Rect : Type := MkRect {
  left : Z; top : Z; across : Z; down : Z; style : string
}.

Record t : Type := Mk {
  width : Z;
  height : Z;
  has2d : bool;
  fillStyle : string;
  fills : list Rect
}.

(** [canvas.width = w]: assigning a dimension clears the bitmap and resets
    the context state. *)
Definition set_width (w : Z) (c : t) : t := Mk w (height c) (has2d c) "#000000" [].

(** [canvas.height = h]. *)
Definition set_height (h : Z) (c : t) : t := Mk (width c) h (has2d c) "#000000" [].

(** [ctx.fillStyle = colour]. *)
Definition set_fillStyle (colour : string) (c : t) : t :=
  Mk (width c) (height c) (has2d c) colour (fills c).

(** [ctx.fillRect(x, y, w, h)] with the current style. *)
Definition fillRect (x y w h : Z) (c : t) : t :=
  Mk (width c) (height c) (has2d c) (fillStyle c)
     (fills c ++ [MkRect x y w h (fillStyle c)]).

(** The pixel at [(px, py)] is painted by a rectangle. *)
Definition covers (px py : Z) (r : Rect) : bool :=
  (left r <=? px)%Z && (px <? left r + across r)%Z
  && (top r <=? py)%Z && (py <? top r + down r)%Z.

(** The colour a pixel shows: that of the latest rectangle painted over it,
    if any. *)
Definition pixel (c : t) (px py : Z) : option string :=
  fold_left (fun shown r => if covers px py r then Some (style r) else shown)
            (fills c) None.

(** How a call ends: normally, or by an exception, with the canvas as it is
    at that moment. *)
Inductive Outcome : Type :=
| Done (c : t)
| Raised (e : JsError) (c : t).

End Canvas.

(** [qr.getModule(x, y)] at any integer coordinates; outside the grid
    qrcodegen's accessor answers [false] (the library is not under src/). *)
Definition getModule_at (qr : QrCode.t) (x y : Z) : bool :=
  if ((0 <=? x) && (x <? Z.of_nat (QrCode.size qr))
      && (0 <=? y) && (y <? Z.of_nat (QrCode.size qr)))%Z
  then QrCode.getModule qr (Z.to_nat x) (Z.to_nat y)
  else false.

(** [for (let i = start; i < start + count; i++) c = body(i, c)] over the
    integers. *)
Fixpoint for_z {S : Type} (start : Z) (count : nat) (body : Z -> S -> S) (c : S) : S :=
  match count with
  | O => c
  | Datatypes.S count' => for_z (start + 1)%Z count' body (body start c)
  end.

Definition drawCanvas (qr : QrCode.t) (scale border : Z) (lightColor darkColor : string)
    (canvas : Canvas.t) : Canvas.Outcome :=
  if ((scale <=? 0) || (border <? 0))%Z
  then Canvas.Raised (RangeError "Value out of range") canvas
  else
    let width := ((Z.of_nat (QrCode.size qr) + border * 2) * scale)%Z in
    let canvas := Canvas.set_width width canvas in
    let canvas := Canvas.set_height width canvas in
    if negb (Canvas.has2d canvas)
    then Canvas.Raised (Error "Canvas has no 2D context") canvas
    else
      let steps := Z.to_nat (Z.of_nat (QrCode.size qr) + border - (- border)) in
      Canvas.Done
        (for_z (- border)%Z steps (fun y =>
           for_z (- border)%Z steps (fun x ctx =>
             let ctx := Canvas.set_fillStyle
                          (if getModule_at qr x y then darkColor else lightColor) ctx in
             Canvas.fillRect ((x + border) * scale)%Z ((y + border) * scale)%Z
                             scale scale ctx))
           canvas).

(** The integer coordinates the two loops of [drawCanvas] visit, in order. *)
Definition z_range (start : Z) (count : nat) : list Z :=
  map (fun i => (start + Z.of_nat i)%Z) (seq 0 count).

Definition canvas_cells (qr : QrCode.t) (border : Z) : list (Z * Z) :=
  let steps := Z.to_nat (Z.of_nat (QrCode.size qr) + border - (- border)) in
  flat_map (fun y => map (fun x => (x, y)) (z_range (- border) steps))
           (z_range (- border) steps).

(** The rectangle [drawCanvas] fills for the cell [(x, y)]. *)
Definition cell_rect (qr : QrCode.t) (scale border : Z) (lightColor darkColor : string)
    (p : Z * Z) : Canvas.Rect :=
  Canvas.MkRect ((fst p + border) * scale)%Z ((snd p + border) * scale)%Z scale scale
                (if getModule_at qr (fst p) (snd p) then darkColor else lightColor).

(** A blank canvas of the given size, with or without a 2D context. *)
Definition blank_canvas (w h : Z) (ctx : bool) : Canvas.t :=
  Canvas.Mk w h ctx "#000000" [].

(** ** The page after [main]: a run of submit events

    An exception thrown by the listener ends that listener only; the page goes
    on with the scene as the listener left it. *)
Definition state_after {A : Type} (r : Result A) : ThreeDScene :=
  match r with
  | Return _ st => st
  | Throw _ st => st
  end.

(** The string the submit handler hands to the encoder. *)
Definition submitted_payload (form : FormData) : string :=
  getWifiEasyConnectUri
    (if negb (FormData_has form "security")
     then FormData_set form "security" (JString "WPA") else form).

Section Page.

Variable encodeText : string -> Ecc -> JsError + QrCode.t.

Fixpoint run_submits (forms : list FormData) (st : ThreeDScene) : ThreeDScene :=
  match forms with
  | [] => st
  | form :: later => run_submits later (state_after (onSubmit encodeText form st))
  end.

(** The symbol on display after a run of submits: the latest one the encoder
    accepted, the initial one when it accepted none. *)
Fixpoint shown_symbol (forms : list FormData) (shown : QrCode.t) : QrCode.t :=
  match forms with
  | [] => shown
  | form :: later =>
      match encodeText (submitted_payload form) LOW with
      | inr qr => shown_symbol later qr
      | inl _ => shown_symbol later shown
      end
  end.

End Page.

(** ** Concrete inputs used by the examples *)

(** A 3 x 3 grid whose diagonal is dark. *)
Definition grid3 : QrCode.t := QrCode.Build 3 (fun x y => Nat.eqb x y).


(** The all-light grid of size 10. *)
Definition grid10 : QrCode.t := QrCode.Build 10 (fun _ _ => false).

(** The 21 x 21 grid whose only dark module is at (0, 0). *)
Definition grid21 : QrCode.t :=
  QrCode.Build 21 (fun x y => Nat.eqb x 0 && Nat.eqb y 0).

(** An encoder that rejects any payload of more than 20 characters and
    otherwise returns the 3 x 3 grid. *)
Definition short_encoder (text : string) (ecl : Ecc) : JsError + QrCode.t :=
  if (20 <? String.length text)%nat then inl (RangeError "Data too long") else inr grid3.

(** The state after the program's first draw of a 3 x 3 grid. *)
Definition shown3 : ThreeDScene := drawn grid3 qrBorderMm constructor.

Definition long_form : FormData :=
  [("ssid"%string, JString "a network name of some length");
   ("security"%string, JString "WPA"); ("password"%string, JString "secret")].

(** A stand-in for the float encoder: every number as four zero bytes. *)
Definition zero_float32le (q : Q) : byte * byte * byte * byte :=
  (Byte.x00, Byte.x00, Byte.x00, Byte.x00).

(** The scene holds no group besides, possibly, the current [qrGroup]: the
    shape every state of the program has. *)
Definition scene_ok (st : ThreeDScene) : Prop :=
  forall r, ~ In (THREE.Group r) (remove_child (qrGroup st) (scene st)).

(** The shape of the scene between events: the light, then the current
    group, whose children are the solids of the symbol on display. *)
Definition displays (qr : QrCode.t) (st : ThreeDScene) : Prop :=
  scene st = [THREE.PointLight (THREE.Vec3 0 0 barcodeSizeMm); THREE.Group (qrGroup st)] /\
  solids st = built_solids qr qrBorderMm.

(** What a loop body does to a canvas when all it does is fill rectangles. *)
Definition only_fills (body : Z -> Canvas.t -> Canvas.t) (f : Z -> list Canvas.Rect) : Prop :=
  forall i c,
    Canvas.fills (body i c) = Canvas.fills c ++ f i /\
    Canvas.width (body i c) = Canvas.width c /\
    Canvas.height (body i c) = Canvas.height c.

(** A form with no [security] entry. *)
Definition home_form : FormData :=
  [("ssid"%string, JString "Home"); ("password"%string, JString "secret")].

(** An encoder that rejects any payload of more than 20 characters and
    otherwise returns the diagonal grid whose size is the length of the
    payload. *)
Definition sized_encoder (text : string) (ecl : Ecc) : JsError + QrCode.t :=
  if (20 <? String.length text)%nat then inl (RangeError "Data too long")
  else inr (QrCode.Build (String.length text) (fun x y => Nat.eqb x y)).

(** An open network. *)
Definition none_form : FormData :=
  [("ssid"%string, JString "Cafe7"); ("security"%string, JString "none")].

(** * Properties *)

(** ** The loops of [drawBarcode] *)

Lemma push_all_nil r st : push_all r [] st = st.
Proof.
  destruct st as [g s q]. unfold push_all; simpl. f_equal.
  apply alter_id. intros ch _. apply app_nil_r.
Qed.

Lemma push_all_app r ms1 ms2 st :
  push_all r ms2 (push_all r ms1 st) = push_all r (ms1 ++ ms2) st.
Proof.
  unfold push_all; simpl. f_equal.
  rewrite alter_alter_eq. apply alter_ext. intros ch _. simpl.
  symmetry. apply app_assoc.
Qed.

Lemma push_all_qrGroup r ms st : qrGroup (push_all r ms st) = qrGroup st.
Proof. reflexivity. Qed.

(** A loop whose body pushes [f i] onto the current group pushes the
    concatenation of the [f i] in index order. *)
Lemma for_loop_push (f : nat -> list THREE.Mesh) (body : nat -> M unit) :
  (forall i st, body i st = Return tt (push_all (qrGroup st) (f i) st)) ->
  forall count start st,
    for_loop start count body st
    = Return tt (push_all (qrGroup st) (flat_map f (seq start count)) st).
Proof.
  intros Hbody. induction count as [|count IH]; intros start st.
  - simpl. now rewrite push_all_nil.
  - cbn [for_loop seq flat_map]. unfold mbind, M_bind at 1.
    rewrite Hbody, IH, push_all_qrGroup, push_all_app. reflexivity.
Qed.

Lemma drawBarcodeModule_push x y size thickness st :
  drawBarcodeModule x y size thickness st
  = Return tt (push_all (qrGroup st)
      [THREE.MkMesh (THREE.Box size size thickness) (THREE.Phong 0x404040)
                    (THREE.Vec3 x (- y)%Q (thickness / 2)%Q)] st).
Proof. reflexivity. Qed.

Lemma drawBarcodeBackground_push h w thickness st :
  drawBarcodeBackground h w thickness st
  = Return tt (push_all (qrGroup st)
      [THREE.MkMesh (THREE.Box h w thickness) (THREE.Phong 0xffffff)
                    (THREE.Vec3 0 0 (- thickness / 2)%Q)] st).
Proof. reflexivity. Qed.

(** Collecting the true entries of a row is mapping over the filtered row. *)
Lemma flat_map_if_filter {A B : Type} (p : A -> bool) (f : A -> B) (l : list A) :
  flat_map (fun a => if p a then [f a] else []) l = map f (List.filter p l).
Proof.
  induction l as [|a l IH]; simpl; [reflexivity|].
  destruct (p a); simpl; now rewrite IH.
Qed.

Lemma filter_flat_map {A B : Type} (p : B -> bool) (f : A -> list B) (l : list A) :
  List.filter p (flat_map f l) = flat_map (fun a => List.filter p (f a)) l.
Proof.
  induction l as [|a l IH]; simpl; [reflexivity|].
  now rewrite List.filter_app, IH.
Qed.

Lemma map_flat_map {A B C : Type} (g : B -> C) (f : A -> list B) (l : list A) :
  map g (flat_map f l) = flat_map (fun a => map g (f a)) l.
Proof.
  induction l as [|a l IH]; simpl; [reflexivity|].
  now rewrite map_app, IH.
Qed.

(** The two nested loops visit the true modules in row-major order. *)
Lemma module_loops_row_major (qr : QrCode.t) (g : nat * nat -> THREE.Mesh) :
  flat_map (fun y =>
     flat_map (fun x => if QrCode.getModule qr x y then [g (x, y)] else [])
              (seq 0 (QrCode.size qr)))
    (seq 0 (QrCode.size qr))
  = map g (true_modules qr).
Proof.
  unfold true_modules, row_major.
  rewrite filter_flat_map, map_flat_map.
  apply flat_map_ext. intros y.
  rewrite (flat_map_if_filter (fun x => QrCode.getModule qr x y) (fun x => g (x, y))).
  generalize (seq 0 (QrCode.size qr)) as l.
  induction l as [|x l IH]; simpl; [reflexivity|].
  destruct (QrCode.getModule qr x y); simpl; now rewrite IH.
Qed.

(** [drawBarcode] with a positive border returns, and leaves [drawn]. *)
Lemma drawBarcode_run qr border st :
  Qle_bool border 0 = false ->
  drawBarcode qr border st = Return tt (drawn qr border st).
Proof.
  intros Hb. unfold drawBarcode. rewrite Hb.
  unfold mbind, M_bind, get_qrGroup, scene_remove, new_Group, set_qrGroup, scene_add.
  cbn [qrGroup scene groups].
  set (n := QrCode.size qr).
  set (scale := (barcodeSizeMm / num n)%Q).
  set (r := fresh (dom (groups st))).
  erewrite (for_loop_push
    (fun y => flat_map (fun x => if QrCode.getModule qr x y
                                 then [built_module n (x, y)] else []) (seq 0 n))).
  2:{ intros y st'.
      erewrite (for_loop_push
        (fun x => if QrCode.getModule qr x y then [built_module n (x, y)] else [])).
      - reflexivity.
      - intros x st''. destruct (QrCode.getModule qr x y).
        + rewrite drawBarcodeModule_push. reflexivity.
        + unfold mret, M_ret. now rewrite push_all_nil. }
  rewrite drawBarcodeBackground_push, push_all_qrGroup, push_all_app.
  cbn [qrGroup]. unfold n. rewrite module_loops_row_major.
  unfold push_all, drawn; cbn [groups scene qrGroup]. fold r.
  f_equal. f_equal.
  rewrite alter_insert_eq. reflexivity.
Qed.

Lemma solids_drawn qr border st : solids (drawn qr border st) = built_solids qr border.
Proof.
  unfold solids, drawn; cbn [groups qrGroup].
  now rewrite lookup_insert_eq.
Qed.

(** ** Arithmetic of the module scale *)

Lemma half (a : Q) : (a / 2 == a * (1 # 2))%Q.
Proof. field. Qed.

(** Linear and polynomial goals over [Q], halves written as products. *)
Ltac qarith := rewrite ?half in *; first [lra | nra].

Lemma num_pos n : (0 < n)%nat -> (0 < num n)%Q.
Proof.
  intros H. unfold num. change 0%Q with (inject_Z 0).
  rewrite <- Zlt_Qlt. lia.
Qed.




Lemma scale_pos n : (0 < n)%nat -> (0 < barcodeSizeMm / num n)%Q.
Proof.
  intros H. apply num_pos in H. unfold barcodeSizeMm.
  apply Qlt_shift_div_l; lra.
Qed.



(** ** The grid in row-major order *)

Lemma in_row_major n x y : In (x, y) (row_major n) <-> (x < n /\ y < n)%nat.
Proof.
  unfold row_major. rewrite in_flat_map. split.
  - intros (y' & Hy & Hx). apply in_map_iff in Hx as (x' & E & Hx).
    inversion E; subst. apply in_seq in Hy, Hx. lia.
  - intros [Hx Hy]. exists y. split; [apply in_seq; lia|].
    apply in_map_iff. exists x. split; [reflexivity | apply in_seq; lia].
Qed.


Lemma in_true_modules qr x y :
  In (x, y) (true_modules qr)
  <-> (x < QrCode.size qr /\ y < QrCode.size qr)%nat /\ QrCode.getModule qr x y = true.
Proof.
  unfold true_modules. rewrite filter_In, in_row_major. reflexivity.
Qed.


Lemma count_rows (f : nat -> nat -> bool) (row rows : list nat) :
  sum_list_with (fun y => sum_list_with (fun x => if f x y then 1 else 0)%nat row) rows
  = length (flat_map (fun y => List.filter (fun p => f (fst p) (snd p))
                                           (map (fun x => (x, y)) row)) rows).
Proof.
  induction rows as [|y rows IH]; simpl; [reflexivity|].
  rewrite length_app, <- IH. f_equal. clear IH.
  induction row as [|x row IHr]; simpl; [reflexivity|].
  destruct (f x y); simpl; now rewrite IHr.
Qed.

(** The count of true modules is the length of their row-major list. *)
Lemma dark_modules_length qr : dark_modules qr = length (true_modules qr).
Proof.
  unfold dark_modules, true_modules, row_major.
  rewrite filter_flat_map. apply count_rows.
Qed.


(** ** Where a module solid sits *)




Lemma is_dark_built_module n p : is_dark (built_module n p) = true.
Proof. reflexivity. Qed.

Lemma is_dark_built_base border : is_dark (built_base border) = false.
Proof. reflexivity. Qed.

Lemma is_base_built_module n p : is_base (built_module n p) = false.
Proof. reflexivity. Qed.

Lemma is_base_built_base border : is_base (built_base border) = true.
Proof. reflexivity. Qed.





(** ** The base plate *)

(** C2. Every valid build call leaves exactly one base-plate solid; its
    footprint is [(footprint + 2*border) x (footprint + 2*border)], its height
    is [baseThicknessMm], it is centred at the origin in x and y, its centre z
    is [-baseThicknessMm/2] and its top face is at z = 0.  With the constants
    of the program (footprint 80, base thickness 5) and border 5 the plate is
    90 x 90 x 5 centred at (0, 0). *)
Theorem drawBarcode_base_plate (qr : QrCode.t) (border : Q) (st : ThreeDScene) :
  (0 < border)%Q ->
  exists st',
    drawBarcode qr border st = Return tt st' /\
    length (List.filter is_base (solids st')) = 1%nat /\
    forall m, In m (solids st') -> is_base m = true ->
      (THREE.width (THREE.geometry m) == barcodeSizeMm + 2 * border /\
       THREE.height (THREE.geometry m) == barcodeSizeMm + 2 * border /\
       THREE.depth (THREE.geometry m) == baseThicknessMm /\
       THREE.x (THREE.position m) == 0 /\
       THREE.y (THREE.position m) == 0 /\
       THREE.z (THREE.position m) == - baseThicknessMm / 2 /\
       max_z m == 0)%Q /\
      (border == 5 ->
       THREE.width (THREE.geometry m) == 90 /\
       THREE.height (THREE.geometry m) == 90 /\
       THREE.depth (THREE.geometry m) == 5)%Q.
Proof.
  intros Hb. exists (drawn qr border st). split; [|split].
  - apply drawBarcode_run. destruct (Qle_bool border 0) eqn:E; [|reflexivity].
    apply Qle_bool_iff in E. lra.
  - rewrite solids_drawn. unfold built_solids. rewrite List.filter_app. simpl.
    rewrite length_app. simpl.
    replace (List.filter is_base (map (built_module (QrCode.size qr)) (true_modules qr)))
      with (@nil THREE.Mesh); [reflexivity|].
    induction (true_modules qr) as [|p l IH]; simpl; [reflexivity | exact IH].
  - rewrite solids_drawn. intros m Hin Hbase.
    assert (m = built_base border) as ->.
    { unfold built_solids in Hin. apply in_app_or in Hin as [Hin|[<-|[]]]; [|reflexivity].
      apply in_map_iff in Hin as (p & <- & _). discriminate. }
    unfold max_z, built_base, barcodeSizeMm, baseThicknessMm;
      cbn [THREE.geometry THREE.position THREE.width THREE.height THREE.depth
           THREE.x THREE.y THREE.z].
    split; [repeat split; try reflexivity; qarith|].
    intros E. repeat split; try reflexivity; qarith.
Qed.

Lemma drawBarcode_base_plate_witness :
  exists st',
    drawBarcode grid3 5 constructor = Return tt st' /\
    length (List.filter is_base (solids st')) = 1%nat /\
    forall m, In m (solids st') -> is_base m = true ->
      (THREE.width (THREE.geometry m) == barcodeSizeMm + 2 * 5 /\
       THREE.height (THREE.geometry m) == barcodeSizeMm + 2 * 5 /\
       THREE.depth (THREE.geometry m) == baseThicknessMm /\
       THREE.x (THREE.position m) == 0 /\
       THREE.y (THREE.position m) == 0 /\
       THREE.z (THREE.position m) == - baseThicknessMm / 2 /\
       max_z m == 0)%Q /\
      (5 == 5 ->
       THREE.width (THREE.geometry m) == 90 /\
       THREE.height (THREE.geometry m) == 90 /\
       THREE.depth (THREE.geometry m) == 5)%Q.
Proof.
  apply (drawBarcode_base_plate grid3 5 constructor). reflexivity.
Defined.

(** ** Count and order of the solids *)





(** ** Footprints *)








(** ** Preconditions and failure *)

Lemma positive_border_passes border : (0 < border)%Q -> Qle_bool border 0 = false.
Proof.
  intros Hb. destruct (Qle_bool border 0) eqn:E; [|reflexivity].
  apply Qle_bool_iff in E. lra.
Qed.

Lemma drawBarcode_throws qr border st :
  (border <= 0)%Q ->
  drawBarcode qr border st = Throw (RangeError "Value out of range") st.
Proof.
  intros Hb. unfold drawBarcode.
  rewrite (proj2 (Qle_bool_iff border 0) Hb). reflexivity.
Qed.

(** C6. For every grid, [drawBarcode] with border 0 fails with the range
    error "Value out of range", with border -1 it fails with the same error,
    and with border 5 it succeeds. *)
Theorem drawBarcode_border_precondition (qr : QrCode.t) (st : ThreeDScene) :
  drawBarcode qr 0 st = Throw (RangeError "Value out of range") st /\
  drawBarcode qr (-1) st = Throw (RangeError "Value out of range") st /\
  exists st', drawBarcode qr 5 st = Return tt st'.
Proof.
  split; [|split].
  - apply drawBarcode_throws. lra.
  - apply drawBarcode_throws. lra.
  - exists (drawn qr 5 st). apply drawBarcode_run. reflexivity.
Qed.




(** A thrown [drawBarcode] has touched nothing. *)
Lemma drawBarcode_throw_inv qr border st e st' :
  drawBarcode qr border st = Throw e st' ->
  st' = st /\ e = RangeError "Value out of range" /\ (border <= 0)%Q.
Proof.
  intros H. destruct (Qle_bool border 0) eqn:E.
  - apply Qle_bool_iff in E. rewrite (drawBarcode_throws qr border st E) in H.
    inversion H; subst. auto.
  - rewrite (drawBarcode_run qr border st E) in H. discriminate.
Qed.

(** In the submit handler only the encoder can fail: the border there is the
    positive constant [qrBorderMm]. *)
Lemma onSubmit_throw_inv encodeText form st e st' :
  onSubmit encodeText form st = Throw e st' ->
  st' = st /\ exists content, encodeText content LOW = inl e.
Proof.
  unfold onSubmit, generateQrCode, mbind, M_bind.
  set (content := getWifiEasyConnectUri _).
  destruct (encodeText content LOW) as [err|qr] eqn:E.
  - intros H. inversion H; subst. split; [reflexivity | now exists content].
  - intros H. apply drawBarcode_throw_inv in H as (_ & _ & Hb).
    unfold qrBorderMm in Hb. lra.
Qed.

(** C8. Whenever a build or redraw attempt fails, whether [drawBarcode]
    throws on its precondition or the submit handler fails because the encoder
    throws, the state at the throw is the state before the attempt: the solids
    of the current group and the meshes reachable from the scene are the
    previous ones, nothing partial is installed. *)
Theorem failed_redraw_keeps_scene
    (encodeText : string -> Ecc -> JsError + QrCode.t)
    (qr : QrCode.t) (border : Q) (form : FormData)
    (st st' : ThreeDScene) (e : JsError) :
  drawBarcode qr border st = Throw e st' \/ onSubmit encodeText form st = Throw e st' ->
  st' = st /\ solids st' = solids st /\ scene_meshes st' = scene_meshes st.
Proof.
  intros [H|H].
  - apply drawBarcode_throw_inv in H as (-> & _). auto.
  - apply onSubmit_throw_inv in H as (-> & _). auto.
Qed.

Lemma failed_redraw_keeps_scene_witness :
  (drawBarcode grid3 0 shown3 = Throw (RangeError "Value out of range") shown3 /\
   onSubmit short_encoder long_form shown3 = Throw (RangeError "Data too long") shown3) /\
  (shown3 = shown3 /\ solids shown3 = solids shown3
   /\ scene_meshes shown3 = scene_meshes shown3).
Proof.
  split; [split; reflexivity|].
  assert (H1 := failed_redraw_keeps_scene short_encoder grid3 0 long_form shown3 shown3
                  (RangeError "Value out of range") (or_introl eq_refl)).
  assert (H2 := failed_redraw_keeps_scene short_encoder grid3 5 long_form shown3 shown3
                  (RangeError "Data too long") (or_intror eq_refl)).
  destruct H1 as (E1 & S1 & M1), H2 as (E2 & S2 & M2).
  exact (conj E1 (conj S1 M2)).
Defined.

(** ** The exported stream *)

Lemma box_triangles_length m : length (STL.box_triangles m) = 12%nat.
Proof. reflexivity. Qed.

Lemma mesh_triangles_length ms :
  length (flat_map STL.box_triangles ms) = (12 * length ms)%nat.
Proof.
  induction ms as [|m ms IH]; [reflexivity|].
  cbn [flat_map]. rewrite length_app, box_triangles_length, IH. simpl length. lia.
Qed.

Lemma skipn_app_exact {A : Type} (l1 l2 : list A) n :
  length l1 = n -> skipn n (l1 ++ l2) = l2.
Proof.
  intros <-. rewrite skipn_app, skipn_all, Nat.sub_diag. reflexivity.
Qed.

Lemma firstn_app_exact {A : Type} (l1 l2 : list A) n :
  length l1 = n -> firstn n (l1 ++ l2) = l1.
Proof.
  intros <-. rewrite firstn_app, firstn_all, Nat.sub_diag. simpl. apply app_nil_r.
Qed.

Section SerialiseFacts.

Variable float32le : Q -> byte * byte * byte * byte.

Lemma float_bytes_length q : length (STL.float_bytes float32le q) = 4%nat.
Proof.
  unfold STL.float_bytes. destruct (float32le q) as [[[b0 b1] b2] b3]. reflexivity.
Qed.

Lemma vector_bytes_length v : length (STL.vector_bytes float32le v) = 12%nat.
Proof.
  unfold STL.vector_bytes. rewrite !length_app, !float_bytes_length. reflexivity.
Qed.

Lemma triangle_bytes_length t : length (STL.triangle_bytes float32le t) = 50%nat.
Proof.
  unfold STL.triangle_bytes. rewrite !length_app, !vector_bytes_length. reflexivity.
Qed.

Lemma records_length ts :
  length (flat_map (STL.triangle_bytes float32le) ts) = (50 * length ts)%nat.
Proof.
  induction ts as [|t ts IH]; [reflexivity|].
  cbn [flat_map]. rewrite length_app, triangle_bytes_length, IH. simpl length. lia.
Qed.

Lemma parse_binary_length ms :
  length (STL.parse_binary float32le ms) = (84 + 50 * (12 * length ms))%nat.
Proof.
  unfold STL.parse_binary.
  rewrite !length_app, repeat_length, length_le_split, records_length,
    mesh_triangles_length.
  lia.
Qed.

Lemma parse_binary_records ms :
  STL.record_bytes (STL.parse_binary float32le ms)
  = flat_map (STL.triangle_bytes float32le) (flat_map STL.box_triangles ms).
Proof.
  unfold STL.record_bytes, STL.parse_binary.
  rewrite app_assoc. apply skipn_app_exact.
  rewrite length_app, repeat_length, length_le_split. reflexivity.
Qed.

Lemma parse_binary_header ms :
  STL.header_count (STL.parse_binary float32le ms)
  = (Z.of_nat (12 * length ms) mod 2 ^ 32)%Z.
Proof.
  unfold STL.header_count, STL.parse_binary.
  rewrite (skipn_app_exact (repeat Byte.x00 80)) by apply repeat_length.
  rewrite (firstn_app_exact (le_split 4 _)) by apply length_le_split.
  rewrite le_combine_split, mesh_triangles_length. reflexivity.
Qed.

(** C4. For every scene, [exportAsSTL] returns (and leaves the scene
    alone); the byte length of the binary mesh is [84 + 50 * triangleCount]
    with [triangleCount = 12 * numberOfSolids]; the bytes after the 84-byte
    preamble are exactly [triangleCount] records of 50 bytes; the 4-byte
    little-endian count of the header is [triangleCount] reduced to 32 bits,
    hence equal to the number of records that follow whenever that number
    fits the field. *)
Theorem exportAsSTL_byte_length (st : ThreeDScene) :
  exists stream,
    STL.exportAsSTL float32le st = Return (stream, "QR Code.stl"%string) st /\
    let numberOfSolids := length (scene_meshes st) in
    let triangleCount := (12 * numberOfSolids)%nat in
    length stream = (84 + 50 * triangleCount)%nat /\
    length (STL.record_bytes stream) = (50 * triangleCount)%nat /\
    STL.header_count stream = (Z.of_nat triangleCount mod 2 ^ 32)%Z /\
    ((Z.of_nat triangleCount < 2 ^ 32)%Z ->
     STL.header_count stream = Z.of_nat (length (STL.record_bytes stream) / 50)).
Proof.
  exists (STL.parse_binary float32le (scene_meshes st)).
  split; [reflexivity|]. cbv zeta.
  assert (Hrec : length (STL.record_bytes (STL.parse_binary float32le (scene_meshes st)))
                 = (50 * (12 * length (scene_meshes st)))%nat).
  { rewrite parse_binary_records, records_length, mesh_triangles_length. reflexivity. }
  split; [apply parse_binary_length|]. split; [exact Hrec|].
  split; [apply parse_binary_header|].
  intros Hfit. rewrite parse_binary_header, Hrec.
  rewrite (Nat.mul_comm 50), Nat.div_mul by discriminate.
  apply Z.mod_small. lia.
Qed.

End SerialiseFacts.

(** ** The Wi-Fi payload *)

Lemma string_app_assoc (a b c : string) : ((a ++ b) ++ c = a ++ (b ++ c))%string.
Proof.
  induction a as [|ch a IH]; [reflexivity|].
  change (String ch ((a ++ b) ++ c) = String ch (a ++ (b ++ c)))%string.
  now f_equal.
Qed.

Lemma string_app_nil_r (a : string) : (a ++ "" = a)%string.
Proof.
  induction a as [|ch a IH]; [reflexivity|].
  change (String ch (a ++ "") = String ch a)%string.
  now f_equal.
Qed.

(** [join] of an array with one more element at the end. *)
Lemma concat_snoc (sep : string) (l : list string) (last : string) :
  l <> [] ->
  String.concat sep (l ++ [last]) = (String.concat sep l ++ sep ++ last)%string.
Proof.
  induction l as [|a l IH]; intros Hne; [contradiction|].
  destruct l as [|b l]; [reflexivity|].
  change (String.concat sep ((a :: b :: l) ++ [last]))
    with (a ++ sep ++ String.concat sep ((b :: l) ++ [last]))%string.
  rewrite IH by discriminate.
  change (String.concat sep (a :: b :: l))
    with (a ++ sep ++ String.concat sep (b :: l))%string.
  now rewrite !string_app_assoc.
Qed.

Lemma FormData_get_delete_ne data name other :
  name <> other ->
  FormData_get (FormData_delete data other) name = FormData_get data name.
Proof.
  intros Hne. induction data as [|[k v] data IH]; [reflexivity|]. simpl.
  destruct (String.eqb_spec k other) as [->|Hk]; simpl.
  - rewrite (proj2 (String.eqb_neq other name)) by congruence. exact IH.
  - now rewrite IH.
Qed.

Lemma FormData_get_delete_eq data name :
  FormData_get (FormData_delete data name) name = JNull.
Proof.
  induction data as [|[k v] data IH]; [reflexivity|]. simpl.
  destruct (String.eqb_spec k name) as [->|Hk]; simpl; [exact IH|].
  now rewrite (proj2 (String.eqb_neq k name)) by exact Hk.
Qed.

Lemma wifi_parts_nonempty data : wifi_parts data <> [].
Proof.
  unfold wifi_parts.
  destruct (strict_neq_string _ _), (truthy _); discriminate.
Qed.

Lemma wifi_parts_js_nonempty data : wifi_parts_js data <> [].
Proof.
  unfold wifi_parts_js.
  destruct (strict_neq_string _ _), (truthy _); discriminate.
Qed.

(** The [hidden] entry decides the last push and nothing else. *)
Lemma wifi_parts_hidden data :
  wifi_parts data
  = wifi_parts (FormData_delete data "hidden")
      ++ (if truthy (FormData_get data "hidden") then ["H:true"%string] else []).
Proof.
  unfold wifi_parts.
  rewrite FormData_get_delete_eq.
  rewrite !(FormData_get_delete_ne data _ "hidden") by discriminate.
  cbn [truthy].
  destruct (strict_neq_string _ _), (truthy _); cbn [app]; reflexivity.
Qed.

Lemma wifi_parts_js_hidden data :
  wifi_parts_js data
  = wifi_parts_js (FormData_delete data "hidden")
      ++ (if truthy (FormData_get data "hidden") then ["H:true"%string] else []).
Proof.
  unfold wifi_parts_js.
  rewrite FormData_get_delete_eq.
  rewrite !(FormData_get_delete_ne data _ "hidden") by discriminate.
  cbn [truthy].
  destruct (strict_neq_string _ _), (truthy _); cbn [app]; reflexivity.
Qed.

(** C9. [getWifiEasyConnectUri] maps ssid=Home, security=none with no
    [hidden] entry (an unchecked box submits none) to exactly "WIFI:S:Home",
    and ssid=Home, security=WPA, password=secret, hidden=true to exactly
    "WIFI:S:Home;T:WPA;P:secret;H:true"; the older [main.js] agrees.  In
    general the segments are joined by semicolons, the [S:] segment comes
    first, [T:] and [P:] are absent when security is "none", and [H:true] is
    absent when there is no [hidden] entry. *)
Theorem getWifiEasyConnectUri_scenarios :
  getWifiEasyConnectUri
    [("ssid", JString "Home"); ("security", JString "none")]%string
  = "WIFI:S:Home"%string /\
  getWifiEasyConnectUri
    [("ssid", JString "Home"); ("security", JString "WPA");
     ("password", JString "secret"); ("hidden", JString "true")]%string
  = "WIFI:S:Home;T:WPA;P:secret;H:true"%string /\
  getWifiEasyConnectUri_js
    [("ssid", JString "Home"); ("security", JString "none")]%string
  = "WIFI:S:Home"%string /\
  getWifiEasyConnectUri_js
    [("ssid", JString "Home"); ("security", JString "WPA");
     ("password", JString "secret"); ("hidden", JString "true")]%string
  = "WIFI:S:Home;T:WPA;P:secret;H:true"%string /\
  forall data : FormData,
    (exists rest,
        wifi_parts data = ("S:" ++ to_string (FormData_get data "ssid"))%string :: rest) /\
    getWifiEasyConnectUri data = ("WIFI:" ++ String.concat ";" (wifi_parts data))%string /\
    (FormData_get data "security" = JString "none" ->
     FormData_get data "hidden" = JNull ->
     getWifiEasyConnectUri data
     = ("WIFI:S:" ++ to_string (FormData_get data "ssid"))%string).
Proof.
  repeat (split; [reflexivity|]).
  intros data. split; [|split; [reflexivity|]].
  - unfold wifi_parts.
    destruct (strict_neq_string _ _), (truthy _); cbn [app]; eauto.
  - intros Hsec Hhid. unfold getWifiEasyConnectUri, wifi_parts.
    rewrite Hsec, Hhid. reflexivity.
Qed.

(** C10. For every form input, the hidden segment is pushed exactly when
    the [hidden] entry is present with a truthy value (not null, not the empty
    string), and what is pushed is the literal "H:true" whatever the entry
    holds: the URI is the URI of the same form without its [hidden] entries,
    followed by ";H:true" in the truthy case and by nothing otherwise.  An
    input whose [hidden] is the string "false" yields a URI ending in
    ";H:true".  Both [main.ts] and [main.js] behave so. *)
Theorem getWifiEasyConnectUri_hidden (data : FormData) :
  wifi_parts data
  = wifi_parts (FormData_delete data "hidden")
      ++ (if truthy (FormData_get data "hidden") then ["H:true"%string] else []) /\
  getWifiEasyConnectUri data
  = (getWifiEasyConnectUri (FormData_delete data "hidden")
      ++ (if truthy (FormData_get data "hidden") then ";H:true" else ""))%string /\
  getWifiEasyConnectUri_js data
  = (getWifiEasyConnectUri_js (FormData_delete data "hidden")
      ++ (if truthy (FormData_get data "hidden") then ";H:true" else ""))%string /\
  (truthy (FormData_get data "hidden") = true
   <-> FormData_get data "hidden" <> JNull /\ FormData_get data "hidden" <> JString "") /\
  getWifiEasyConnectUri
    [("ssid", JString "Home"); ("security", JString "none"); ("hidden", JString "false")]%string
  = "WIFI:S:Home;H:true"%string.
Proof.
  split; [apply wifi_parts_hidden|]. split; [|split; [|split; [|reflexivity]]].
  - unfold getWifiEasyConnectUri. rewrite wifi_parts_hidden.
    destruct (truthy (FormData_get data "hidden")).
    + rewrite concat_snoc by apply wifi_parts_nonempty.
      now rewrite string_app_assoc.
    + now rewrite app_nil_r, string_app_nil_r.
  - unfold getWifiEasyConnectUri_js. rewrite wifi_parts_js_hidden.
    destruct (truthy (FormData_get data "hidden")).
    + rewrite concat_snoc by apply wifi_parts_js_nonempty.
      now rewrite string_app_assoc.
    + now rewrite app_nil_r, string_app_nil_r.
  - destruct (FormData_get data "hidden") as [|s|f]; simpl.
    + split; [discriminate | intros [H _]; now contradiction H].
    + destruct (String.eqb_spec s "") as [->|Hs]; simpl.
      * split; [discriminate | intros [_ H]; now contradiction H].
      * split; [intros _; split; congruence | reflexivity].
    + split; [intros _; split; discriminate | reflexivity].
Qed.

(** ** The scene as the exporter sees it *)

Lemma remove_child_no_groups r l :
  (forall r', ~ In (THREE.Group r') l) -> remove_child r l = l.
Proof.
  induction l as [|o l IH]; intros Hno; [reflexivity|].
  destruct o as [pos|r']; simpl.
  - f_equal. apply IH. intros r' Hin. apply (Hno r'). now right.
  - exfalso. apply (Hno r'). now left.
Qed.

Lemma remove_child_last r l :
  (forall r', ~ In (THREE.Group r') l) -> remove_child r (l ++ [THREE.Group r]) = l.
Proof.
  induction l as [|o l IH]; intros Hno; simpl.
  - now rewrite Nat.eqb_refl.
  - destruct o as [pos|r'].
    + f_equal. apply IH. intros r' Hin. apply (Hno r'). now right.
    + exfalso. apply (Hno r'). now left.
Qed.

Lemma scene_ok_constructor : scene_ok constructor.
Proof. intros r [H|[]]. discriminate. Qed.

(** A draw keeps the shape, and afterwards the scene shows exactly the solids
    of the new group. *)
Lemma scene_ok_drawn qr border st :
  scene_ok st ->
  scene_ok (drawn qr border st) /\
  scene_meshes (drawn qr border st) = built_solids qr border.
Proof.
  intros Hok. split.
  - unfold scene_ok, drawn; cbn [scene qrGroup].
    rewrite remove_child_last by exact Hok. exact Hok.
  - unfold scene_meshes, drawn; cbn [scene groups].
    rewrite flat_map_app. cbn [flat_map].
    rewrite lookup_insert_eq, app_nil_r. cbn [default from_option].
    replace (flat_map _ (remove_child (qrGroup st) (scene st))) with (@nil THREE.Mesh);
      [reflexivity|].
    revert Hok. unfold scene_ok.
    induction (remove_child (qrGroup st) (scene st)) as [|o l IH]; intros Hok;
      [reflexivity|].
    destruct o as [pos|r']; simpl.
    + apply IH. intros r Hin. apply (Hok r). now right.
    + exfalso. apply (Hok r'). now left.
Qed.

(** The program's own runs: [main] and every later submit draw with the
    border [qrBorderMm], and what the scene then shows is what was built. *)
Lemma main_run encodeText qr :
  encodeText "Hello World"%string LOW = inr qr ->
  main encodeText constructor = Return tt (drawn qr qrBorderMm constructor) /\
  scene_meshes (drawn qr qrBorderMm constructor) = built_solids qr qrBorderMm.
Proof.
  intros E. split.
  - unfold main, generateQrCode, mbind, M_bind. rewrite E.
    apply drawBarcode_run. reflexivity.
  - apply scene_ok_drawn, scene_ok_constructor.
Qed.

Lemma onSubmit_run encodeText form st qr :
  scene_ok st ->
  encodeText
    (getWifiEasyConnectUri
       (if negb (FormData_has form "security")
        then FormData_set form "security" (JString "WPA") else form)) LOW = inr qr ->
  onSubmit encodeText form st = Return tt (drawn qr qrBorderMm st) /\
  scene_ok (drawn qr qrBorderMm st) /\
  scene_meshes (drawn qr qrBorderMm st) = built_solids qr qrBorderMm.
Proof.
  intros Hok E. split.
  - unfold onSubmit, generateQrCode, mbind, M_bind. rewrite E.
    apply drawBarcode_run. reflexivity.
  - now apply scene_ok_drawn.
Qed.

(** ** The scenarios of the specification *)

(** Section 8: a 21 x 21 grid with one true module at (0, 0), border 5: two
    solids, the module solid centred at (-800/21, 800/21), about
    (-38.10, 38.10), of height 2, and the plate 90 x 90 x 5 at the origin. *)
Example scenario_single_module :
  exists m plate,
    solids (drawn grid21 5 constructor) = [m; plate] /\
    (THREE.x (THREE.position m) == - (800 # 21) /\
     THREE.y (THREE.position m) == 800 # 21 /\
     THREE.depth (THREE.geometry m) == 2 /\
     THREE.width (THREE.geometry plate) == 90 /\
     THREE.height (THREE.geometry plate) == 90 /\
     THREE.depth (THREE.geometry plate) == 5 /\
     THREE.x (THREE.position plate) == 0 /\
     THREE.y (THREE.position plate) == 0)%Q.
Proof.
  exists (built_module 21 (0%nat, 0%nat)), (built_base 5).
  split; [rewrite solids_drawn; reflexivity|].
  repeat split; reflexivity.
Qed.

(** Section 8: the all-light grid of size 10 gives the base plate alone, and
    the exported mesh has 12 triangles in 684 bytes. *)
Example scenario_empty_grid (float32le : Q -> byte * byte * byte * byte) :
  drawBarcode grid10 5 constructor = Return tt (drawn grid10 5 constructor) /\
  scene_meshes (drawn grid10 5 constructor) = [built_base 5] /\
  length (STL.parse_binary float32le (scene_meshes (drawn grid10 5 constructor))) = 684%nat /\
  STL.header_count (STL.parse_binary float32le (scene_meshes (drawn grid10 5 constructor)))
  = 12%Z.
Proof.
  split; [apply drawBarcode_run; reflexivity|].
  destruct (scene_ok_drawn grid10 5 constructor scene_ok_constructor) as [_ E].
  rewrite E. split; [reflexivity|].
  rewrite parse_binary_length, parse_binary_header. split; reflexivity.
Qed.

Lemma exportAsSTL_byte_length_witness :
  exists stream,
    STL.exportAsSTL zero_float32le shown3 = Return (stream, "QR Code.stl"%string) shown3 /\
    length stream = 2484%nat /\
    length (STL.record_bytes stream) = 2400%nat /\
    STL.header_count stream = 48%Z.
Proof.
  destruct (exportAsSTL_byte_length zero_float32le shown3) as (stream & Hrun & Hlen & Hrec & Hhead & Hfit).
  exists stream. split; [exact Hrun|].
  split; [exact Hlen|]. split; [exact Hrec|].
  rewrite Hfit; [rewrite Hrec; reflexivity | reflexivity].
Defined.

(** * Further properties of the code *)

(** ** Geometry of a build *)




(** X1. Every solid of a valid build has strictly positive extents along the
    three axes. *)
Theorem drawBarcode_positive_extents (qr : QrCode.t) (border : Q) (st : ThreeDScene) :
  (0 < border)%Q ->
  exists st',
    drawBarcode qr border st = Return tt st' /\
    forall m, In m (solids st') ->
      (0 < THREE.width (THREE.geometry m) /\
       0 < THREE.height (THREE.geometry m) /\
       0 < THREE.depth (THREE.geometry m))%Q.
Proof.
  intros Hb. exists (drawn qr border st). split.
  - apply drawBarcode_run, positive_border_passes, Hb.
  - rewrite solids_drawn. unfold built_solids. intros m Hin.
    apply in_app_or in Hin as [Hin|[<-|[]]].
    + apply in_map_iff in Hin as ([x y] & <- & Hp).
      apply in_true_modules in Hp as [[Hx _] _].
      assert (Hs : (0 < barcodeSizeMm / num (QrCode.size qr))%Q) by (apply scale_pos; lia).
      unfold built_module, qrThicknessMm; cbn [THREE.geometry THREE.width THREE.height THREE.depth].
      split; [exact Hs | split; [exact Hs | reflexivity]].
    + unfold built_base, barcodeSizeMm, baseThicknessMm;
        cbn [THREE.geometry THREE.width THREE.height THREE.depth].
      split; [lra | split; [lra | reflexivity]].
Qed.

Lemma drawBarcode_positive_extents_witness :
  exists st',
    drawBarcode grid3 5 constructor = Return tt st' /\
    forall m, In m (solids st') ->
      (0 < THREE.width (THREE.geometry m) /\
       0 < THREE.height (THREE.geometry m) /\
       0 < THREE.depth (THREE.geometry m))%Q.
Proof.
  apply (drawBarcode_positive_extents grid3 5 constructor). reflexivity.
Defined.





(** ** The store of groups and the page *)

(** X4. A build allocates one group that did not exist before and leaves every
    earlier group, the previous [qrGroup] among them, with the children it
    had. *)
Theorem drawBarcode_keeps_earlier_groups (qr : QrCode.t) (border : Q) (st : ThreeDScene) :
  (0 < border)%Q ->
  exists st',
    drawBarcode qr border st = Return tt st' /\
    groups st !! qrGroup st' = None /\
    forall r ch, groups st !! r = Some ch -> groups st' !! r = Some ch.
Proof.
  intros Hb. exists (drawn qr border st).
  assert (Hfresh : groups st !! fresh (dom (groups st)) = None).
  { apply not_elem_of_dom, is_fresh. }
  split; [apply drawBarcode_run, positive_border_passes, Hb|].
  unfold drawn; cbn [groups qrGroup]. split; [exact Hfresh|].
  intros r ch Hr. rewrite lookup_insert_ne; [exact Hr|].
  intros <-. rewrite Hfresh in Hr. discriminate.
Qed.

Lemma drawBarcode_keeps_earlier_groups_witness :
  exists st',
    drawBarcode grid3 5 shown3 = Return tt st' /\
    groups shown3 !! qrGroup st' = None /\
    forall r ch, groups shown3 !! r = Some ch -> groups st' !! r = Some ch.
Proof.
  apply (drawBarcode_keeps_earlier_groups grid3 5 shown3). reflexivity.
Defined.

Lemma displays_drawn_constructor qr : displays qr (drawn qr qrBorderMm constructor).
Proof.
  split; [reflexivity | apply solids_drawn].
Qed.

Lemma displays_drawn qr qr' st : displays qr st -> displays qr' (drawn qr' qrBorderMm st).
Proof.
  intros [Hscene _]. split; [|apply solids_drawn].
  unfold drawn; cbn [scene qrGroup]. rewrite Hscene. simpl.
  now rewrite Nat.eqb_refl.
Qed.

Lemma displays_scene_meshes qr st : displays qr st -> scene_meshes st = solids st.
Proof.
  intros [Hscene _]. unfold scene_meshes, solids. rewrite Hscene. simpl.
  apply app_nil_r.
Qed.

Lemma onSubmit_cases encodeText form st :
  onSubmit encodeText form st
  = match encodeText (submitted_payload form) LOW with
    | inl e => Throw e st
    | inr qr => Return tt (drawn qr qrBorderMm st)
    end.
Proof.
  unfold onSubmit, generateQrCode, mbind, M_bind. fold (submitted_payload form).
  destruct (encodeText (submitted_payload form) LOW) as [e|qr]; [reflexivity|].
  apply drawBarcode_run. reflexivity.
Qed.

Lemma run_submits_displays encodeText forms :
  forall qr st, displays qr st ->
    displays (shown_symbol encodeText forms qr) (run_submits encodeText forms st).
Proof.
  induction forms as [|form later IH]; intros qr st Hd; [exact Hd|].
  cbn [run_submits shown_symbol]. rewrite onSubmit_cases.
  destruct (encodeText (submitted_payload form) LOW) as [e|qr']; cbn [state_after].
  - now apply IH.
  - apply IH. now apply (displays_drawn qr).
Qed.

(** X5. Replace on redraw, over the life of the page.  Once [main] has drawn its
    first symbol, after any run of submit events, failed or not, the scene
    holds the light and one group, and the meshes reachable from the scene are
    exactly the solids of the latest symbol the encoder accepted: its true
    modules plus one plate, with nothing left of earlier draws. *)
Theorem page_shows_latest_symbol
    (encodeText : string -> Ecc -> JsError + QrCode.t)
    (first : QrCode.t) (forms : list FormData) :
  encodeText "Hello World"%string LOW = inr first ->
  let st := run_submits encodeText forms (state_after (main encodeText constructor)) in
  let qr := shown_symbol encodeText forms first in
  scene st = [THREE.PointLight (THREE.Vec3 0 0 barcodeSizeMm); THREE.Group (qrGroup st)] /\
  scene_meshes st = built_solids qr qrBorderMm /\
  solids st = scene_meshes st /\
  length (scene_meshes st) = (dark_modules qr + 1)%nat.
Proof.
  intros Hfirst st qr.
  assert (Hd : displays qr st).
  { apply run_submits_displays.
    unfold main, generateQrCode, mbind, M_bind. rewrite Hfirst.
    rewrite drawBarcode_run by reflexivity. apply displays_drawn_constructor. }
  pose proof (displays_scene_meshes qr st Hd) as Hm.
  destruct Hd as [Hscene Hsolids].
  split; [exact Hscene|]. split; [now rewrite Hm|]. split; [now rewrite Hm|].
  rewrite Hm, Hsolids. unfold built_solids.
  rewrite length_app, length_map, dark_modules_length. reflexivity.
Qed.

(** ** [drawCanvas] *)

Lemma z_range_cons start count :
  z_range start (S count) = start :: z_range (start + 1) count.
Proof.
  unfold z_range. cbn [seq map]. rewrite Z.add_0_r. f_equal.
  rewrite <- seq_shift, map_map. apply map_ext. intros i. lia.
Qed.

Lemma in_z_range start count z :
  In z (z_range start count) <-> (start <= z < start + Z.of_nat count)%Z.
Proof.
  unfold z_range. rewrite in_map_iff. split.
  - intros (i & <- & Hi). apply in_seq in Hi. lia.
  - intros Hz. exists (Z.to_nat (z - start)). split; [lia | apply in_seq; lia].
Qed.

Lemma NoDup_z_range start count : List.NoDup (z_range start count).
Proof.
  unfold z_range. apply NoDup_map_NoDup_ForallPairs; [|apply seq_NoDup].
  intros a b _ _ E. lia.
Qed.

Lemma for_z_only_fills body f :
  only_fills body f ->
  forall count, only_fills (fun start => for_z start count body)
                           (fun start => flat_map f (z_range start count)).
Proof.
  intros Hbody. induction count as [|count IH]; intros start c.
  - simpl. now rewrite app_nil_r.
  - rewrite z_range_cons. cbn [for_z flat_map].
    destruct (IH (start + 1)%Z (body start c)) as (Hf & Hw & Hh).
    destruct (Hbody start c) as (Hf' & Hw' & Hh').
    rewrite Hf, Hw, Hh, Hf', Hw', Hh', app_assoc. auto.
Qed.

Lemma flat_map_singleton {A B : Type} (f : A -> B) (l : list A) :
  flat_map (fun a => [f a]) l = map f l.
Proof. induction l as [|a l IH]; simpl; [reflexivity | now rewrite IH]. Qed.

(** One step of the inner loop fills the rectangle of its cell. *)
Lemma canvas_cell_only_fills qr scale border light dark y :
  only_fills
    (fun x ctx =>
       Canvas.fillRect ((x + border) * scale)%Z ((y + border) * scale)%Z scale scale
         (Canvas.set_fillStyle (if getModule_at qr x y then dark else light) ctx))
    (fun x => [cell_rect qr scale border light dark (x, y)]).
Proof. intros x ctx. split; [reflexivity | split; reflexivity]. Qed.

(** One step of the outer loop fills a row of cells. *)
Lemma canvas_row_only_fills qr scale border light dark steps :
  only_fills
    (fun y => for_z (- border)%Z steps (fun x ctx =>
       Canvas.fillRect ((x + border) * scale)%Z ((y + border) * scale)%Z scale scale
         (Canvas.set_fillStyle (if getModule_at qr x y then dark else light) ctx)))
    (fun y => map (fun x => cell_rect qr scale border light dark (x, y))
                  (z_range (- border) steps)).
Proof.
  intros y c.
  destruct (for_z_only_fills _ _ (canvas_cell_only_fills qr scale border light dark y)
              steps (- border)%Z c) as (Hf & Hw & Hh).
  rewrite flat_map_singleton in Hf. auto.
Qed.

(** A successful [drawCanvas] leaves a square canvas holding exactly the
    rectangles of its cells, in row-major order. *)
Lemma drawCanvas_run qr scale border light dark canvas :
  (0 < scale)%Z -> (0 <= border)%Z -> Canvas.has2d canvas = true ->
  exists c',
    drawCanvas qr scale border light dark canvas = Canvas.Done c' /\
    Canvas.fills c' = map (cell_rect qr scale border light dark) (canvas_cells qr border) /\
    Canvas.width c' = ((Z.of_nat (QrCode.size qr) + border * 2) * scale)%Z /\
    Canvas.height c' = ((Z.of_nat (QrCode.size qr) + border * 2) * scale)%Z.
Proof.
  intros Hs Hb Hctx. unfold drawCanvas. cbv zeta.
  replace ((scale <=? 0) || (border <? 0))%Z with false by lia.
  set (side := ((Z.of_nat (QrCode.size qr) + border * 2) * scale)%Z).
  set (c0 := Canvas.set_height side (Canvas.set_width side canvas)).
  replace (Canvas.has2d c0) with true by (symmetry; exact Hctx). cbn [negb].
  eexists. split; [reflexivity|].
  set (steps := Z.to_nat (Z.of_nat (QrCode.size qr) + border - - border)).
  destruct (for_z_only_fills _ _ (canvas_row_only_fills qr scale border light dark steps)
              steps (- border)%Z c0) as (Hf & Hw & Hh).
  rewrite Hf, Hw, Hh. cbn [c0 Canvas.set_height Canvas.fills Canvas.width Canvas.height app].
  split; [|split; reflexivity].
  unfold canvas_cells. fold steps. rewrite map_flat_map.
  apply flat_map_ext. intros y. now rewrite map_map.
Qed.

Lemma in_canvas_cells qr border x y :
  In (x, y) (canvas_cells qr border)
  <-> (- border <= x < Z.of_nat (QrCode.size qr) + border
       /\ - border <= y < Z.of_nat (QrCode.size qr) + border)%Z.
Proof.
  unfold canvas_cells. rewrite in_flat_map. split.
  - intros (y' & Hy & Hx). apply in_map_iff in Hx as (x' & E & Hx).
    inversion E; subst. apply in_z_range in Hy, Hx. lia.
  - intros [Hx Hy]. exists y. split; [apply in_z_range; lia|].
    apply in_map_iff. exists x. split; [reflexivity | apply in_z_range; lia].
Qed.

Lemma NoDup_cells (xs ys : list Z) :
  List.NoDup xs -> List.NoDup ys ->
  List.NoDup (flat_map (fun y => map (fun x => (x, y)) xs) ys).
Proof.
  intros Hxs Hys. induction ys as [|y ys IH]; simpl; [constructor|].
  apply List.NoDup_cons_iff in Hys as [Hy Hys].
  apply List.NoDup_app.
  - apply NoDup_map_NoDup_ForallPairs; [|exact Hxs].
    intros a b _ _ E. now inversion E.
  - now apply IH.
  - intros [x y'] Hin Hin'.
    apply in_map_iff in Hin as (x' & E & _). inversion E; subst.
    apply in_flat_map in Hin' as (y'' & Hy'' & Hx).
    apply in_map_iff in Hx as (x'' & E' & _). inversion E'; subst.
    now apply Hy.
Qed.

Lemma NoDup_canvas_cells qr border : List.NoDup (canvas_cells qr border).
Proof. apply NoDup_cells; apply NoDup_z_range. Qed.

Lemma length_z_range start count : length (z_range start count) = count.
Proof. unfold z_range. now rewrite length_map, length_seq. Qed.

Lemma length_canvas_cells qr border :
  (0 <= border)%Z ->
  Z.of_nat (length (canvas_cells qr border))
  = ((Z.of_nat (QrCode.size qr) + border * 2) * (Z.of_nat (QrCode.size qr) + border * 2))%Z.
Proof.
  intros Hb. unfold canvas_cells.
  set (steps := Z.to_nat _).
  assert (Hlen : forall ys : list Z,
    length (flat_map (fun y => map (fun x => (x, y)) (z_range (- border) steps)) ys)
    = (length ys * steps)%nat).
  { induction ys as [|y ys IH]; [reflexivity|].
    cbn [flat_map]. rewrite length_app, IH, length_map, length_z_range.
    simpl length. lia. }
  rewrite Hlen, length_z_range. subst steps.
  rewrite Nat2Z.inj_mul, Z2Nat.id by lia. ring.
Qed.

(** One rectangle of the tiling holds a pixel exactly when it is the
    rectangle of the cell the pixel falls in. *)
Lemma covers_cell_rect qr scale border light dark px py x y :
  (0 < scale)%Z ->
  Canvas.covers px py (cell_rect qr scale border light dark (x, y)) = true
  <-> (x = px / scale - border /\ y = py / scale - border)%Z.
Proof.
  intros Hs. unfold Canvas.covers, cell_rect;
    cbn [Canvas.left Canvas.top Canvas.across Canvas.down fst snd].
  rewrite !andb_true_iff, !Z.leb_le, !Z.ltb_lt.
  pose proof (Z.div_mod px scale ltac:(lia)) as Hpx.
  pose proof (Z.mod_pos_bound px scale Hs) as Hrx.
  pose proof (Z.div_mod py scale ltac:(lia)) as Hpy.
  pose proof (Z.mod_pos_bound py scale Hs) as Hry.
  split; [intros [[[H1 H2] H3] H4] | intros [-> ->]]; nia.
Qed.

(** A predicate that holds of one member only of a duplicate-free list
    selects that member. *)
Lemma filter_unique_eq {A : Type} (p : A -> bool) (a : A) (l : list A) :
  List.NoDup l -> In a l -> p a = true ->
  (forall b, In b l -> p b = true -> b = a) ->
  List.filter p l = [a].
Proof.
  induction l as [|b l IH]; intros Hnd Hin Hpa Huniq; [contradiction|].
  apply List.NoDup_cons_iff in Hnd as [Hb Hnd]. simpl.
  destruct Hin as [->|Hin].
  - rewrite Hpa. f_equal.
    clear IH Hnd. induction l as [|c l IHl]; [reflexivity|]. simpl.
    destruct (p c) eqn:Hpc.
    + exfalso. apply Hb. left. apply Huniq; [right; now left | exact Hpc].
    + apply IHl.
      * intros Hin. apply Hb. now right.
      * intros d [->|Hd]; [intros _; reflexivity|]. apply Huniq. right. now right.
  - destruct (p b) eqn:Hpb.
    + exfalso. apply Hb.
      rewrite (Huniq b); [exact Hin | now left | exact Hpb].
    + apply IH; auto. intros c Hc. apply Huniq. now right.
Qed.

Lemma filter_map_comm {A B : Type} (p : B -> bool) (f : A -> B) (l : list A) :
  List.filter p (map f l) = map f (List.filter (fun a => p (f a)) l).
Proof.
  induction l as [|a l IH]; simpl; [reflexivity|].
  destruct (p (f a)); simpl; now rewrite IH.
Qed.

Lemma last_cons_default {A : Type} (x : A) (l : list A) (d d' : A) :
  List.last (x :: l) d = List.last (x :: l) d'.
Proof.
  revert x. induction l as [|a l IH]; intros x; [reflexivity|].
  change (List.last (a :: l) d = List.last (a :: l) d'). apply IH.
Qed.

Lemma last_cons {A : Type} (x : A) (l : list A) (d : A) :
  List.last (x :: l) d = List.last l x.
Proof.
  destruct l as [|a l]; [reflexivity|].
  change (List.last (a :: l) d = List.last (a :: l) x). apply last_cons_default.
Qed.

(** The colour shown is that of the last rectangle over the pixel. *)
Lemma shown_colour px py (l : list Canvas.Rect) (shown : option string) :
  fold_left (fun shown r => if Canvas.covers px py r then Some (Canvas.style r) else shown)
            l shown
  = List.last (map (fun r => Some (Canvas.style r)) (List.filter (Canvas.covers px py) l)) shown.
Proof.
  revert shown. induction l as [|r l IH]; intros shown; [reflexivity|].
  cbn [fold_left List.filter]. rewrite IH.
  destruct (Canvas.covers px py r); [|reflexivity].
  cbn [map]. now rewrite last_cons.
Qed.

(** The rectangles over a pixel of the canvas: the one of its cell. *)
Lemma canvas_cover qr scale border light dark px py :
  (0 < scale)%Z -> (0 <= border)%Z ->
  (0 <= px < (Z.of_nat (QrCode.size qr) + border * 2) * scale)%Z ->
  (0 <= py < (Z.of_nat (QrCode.size qr) + border * 2) * scale)%Z ->
  List.filter (Canvas.covers px py)
              (map (cell_rect qr scale border light dark) (canvas_cells qr border))
  = [cell_rect qr scale border light dark (px / scale - border, py / scale - border)%Z].
Proof.
  intros Hs Hb Hpx Hpy. rewrite filter_map_comm.
  rewrite (filter_unique_eq _ (px / scale - border, py / scale - border)%Z);
    [reflexivity | apply NoDup_canvas_cells | | | ].
  - apply in_canvas_cells.
    pose proof (Z.div_mod px scale ltac:(lia)) as Ex.
    pose proof (Z.mod_pos_bound px scale Hs) as Hrx.
    pose proof (Z.div_mod py scale ltac:(lia)) as Ey.
    pose proof (Z.mod_pos_bound py scale Hs) as Hry.
    split; split; nia.
  - now apply covers_cell_rect.
  - intros [x y] _ Hc. apply covers_cell_rect in Hc as [-> ->]; [reflexivity | exact Hs].
Qed.

(** X6. [drawCanvas] rejects its arguments, with the range error and the canvas
    untouched, exactly when the scale is not positive or the border is
    negative.  A border of 0, which [drawBarcode] refuses, is accepted. *)
Theorem drawCanvas_argument_check (qr : QrCode.t) (scale border : Z)
    (light dark : string) (canvas : Canvas.t) :
  (drawCanvas qr scale border light dark canvas
     = Canvas.Raised (RangeError "Value out of range") canvas
   <-> (scale <= 0 \/ border < 0)%Z) /\
  (forall c' message,
     drawCanvas qr scale border light dark canvas = Canvas.Raised (RangeError message) c' ->
     c' = canvas /\ (scale <= 0 \/ border < 0)%Z) /\
  ((0 < scale)%Z -> Canvas.has2d canvas = true ->
   exists c', drawCanvas qr scale 0 light dark canvas = Canvas.Done c').
Proof.
  assert (Hcases : ((scale <= 0 \/ border < 0)%Z
                    /\ drawCanvas qr scale border light dark canvas
                       = Canvas.Raised (RangeError "Value out of range") canvas)
                   \/ ((0 < scale /\ 0 <= border)%Z
                       /\ forall c' message,
                            drawCanvas qr scale border light dark canvas
                            <> Canvas.Raised (RangeError message) c')).
  { unfold drawCanvas. destruct ((scale <=? 0) || (border <? 0))%Z eqn:E.
    - left. split; [lia | reflexivity].
    - right. split; [lia|]. cbv zeta. intros c' message.
      destruct (negb _); discriminate. }
  split; [|split].
  - destruct Hcases as [[Hbad Hrun]|[Hgood Hrun]].
    + split; [intros _; exact Hbad | intros _; exact Hrun].
    + split; [intros H; now apply Hrun in H | lia].
  - intros c' message H. destruct Hcases as [[Hbad Hrun]|[Hgood Hrun]].
    + rewrite Hrun in H. inversion H. split; [reflexivity | exact Hbad].
    + now apply Hrun in H.
  - intros Hs Hctx.
    destruct (drawCanvas_run qr scale 0 light dark canvas Hs ltac:(lia) Hctx) as (c' & H & _).
    now exists c'.
Qed.

(** X7. When the canvas gives no 2D context, [drawCanvas] throws, but only after
    it has resized the canvas: at the throw the canvas already has its new
    side and nothing drawn on it. *)
Theorem drawCanvas_without_context (qr : QrCode.t) (scale border : Z)
    (light dark : string) (canvas : Canvas.t) :
  (0 < scale)%Z -> (0 <= border)%Z -> Canvas.has2d canvas = false ->
  exists c',
    drawCanvas qr scale border light dark canvas
      = Canvas.Raised (Error "Canvas has no 2D context") c' /\
    Canvas.width c' = ((Z.of_nat (QrCode.size qr) + border * 2) * scale)%Z /\
    Canvas.height c' = ((Z.of_nat (QrCode.size qr) + border * 2) * scale)%Z /\
    Canvas.fills c' = [].
Proof.
  intros Hs Hb Hctx. unfold drawCanvas. cbv zeta.
  replace ((scale <=? 0) || (border <? 0))%Z with false by lia.
  cbn [Canvas.set_width Canvas.set_height Canvas.has2d]. rewrite Hctx. cbn [negb].
  eexists. split; [reflexivity|]. cbn. auto.
Qed.

Lemma drawCanvas_without_context_witness :
  exists c',
    drawCanvas grid3 10 4 "#FFFFFF" "#000000" (blank_canvas 300 150 false)
      = Canvas.Raised (Error "Canvas has no 2D context") c' /\
    Canvas.width c' = 110%Z /\ Canvas.height c' = 110%Z /\ Canvas.fills c' = [].
Proof.
  apply (drawCanvas_without_context grid3 10 4 "#FFFFFF" "#000000" (blank_canvas 300 150 false));
    [reflexivity | discriminate | reflexivity].
Defined.

(** X8. A successful [drawCanvas] leaves a square canvas of side
    [(size + 2*border) * scale] holding [(size + 2*border)^2] rectangles and
    nothing of what was drawn before; each rectangle is [scale x scale], lies
    within the canvas, and has one of the two given colours. *)
Theorem drawCanvas_tiling (qr : QrCode.t) (scale border : Z)
    (light dark : string) (canvas : Canvas.t) :
  (0 < scale)%Z -> (0 <= border)%Z -> Canvas.has2d canvas = true ->
  exists c',
    drawCanvas qr scale border light dark canvas = Canvas.Done c' /\
    Canvas.width c' = ((Z.of_nat (QrCode.size qr) + border * 2) * scale)%Z /\
    Canvas.height c' = Canvas.width c' /\
    Z.of_nat (length (Canvas.fills c'))
      = ((Z.of_nat (QrCode.size qr) + border * 2) * (Z.of_nat (QrCode.size qr) + border * 2))%Z /\
    forall r, In r (Canvas.fills c') ->
      Canvas.across r = scale /\ Canvas.down r = scale /\
      (0 <= Canvas.left r /\ Canvas.left r + Canvas.across r <= Canvas.width c')%Z /\
      (0 <= Canvas.top r /\ Canvas.top r + Canvas.down r <= Canvas.height c')%Z /\
      (Canvas.style r = light \/ Canvas.style r = dark).
Proof.
  intros Hs Hb Hctx.
  destruct (drawCanvas_run qr scale border light dark canvas Hs Hb Hctx)
    as (c' & Hrun & Hfills & Hw & Hh).
  exists c'. split; [exact Hrun|]. split; [exact Hw|]. split; [now rewrite Hh, Hw|].
  split; [rewrite Hfills, length_map; now apply length_canvas_cells|].
  intros r Hr. rewrite Hfills in Hr. apply in_map_iff in Hr as ([x y] & <- & Hin).
  apply in_canvas_cells in Hin as [Hx Hy]. rewrite Hw, Hh.
  unfold cell_rect; cbn [Canvas.across Canvas.down Canvas.left Canvas.top Canvas.style fst snd].
  split; [reflexivity|]. split; [reflexivity|].
  split; [nia|]. split; [nia|].
  destruct (getModule_at qr x y); auto.
Qed.

Lemma drawCanvas_tiling_witness :
  exists c',
    drawCanvas grid3 10 4 "#FFFFFF" "#000000" (blank_canvas 300 150 true) = Canvas.Done c' /\
    Canvas.width c' = 110%Z /\
    Canvas.height c' = Canvas.width c' /\
    Z.of_nat (length (Canvas.fills c')) = 121%Z /\
    forall r, In r (Canvas.fills c') ->
      Canvas.across r = 10%Z /\ Canvas.down r = 10%Z /\
      (0 <= Canvas.left r /\ Canvas.left r + Canvas.across r <= Canvas.width c')%Z /\
      (0 <= Canvas.top r /\ Canvas.top r + Canvas.down r <= Canvas.height c')%Z /\
      (Canvas.style r = "#FFFFFF"%string \/ Canvas.style r = "#000000"%string).
Proof.
  apply (drawCanvas_tiling grid3 10 4 "#FFFFFF" "#000000" (blank_canvas 300 150 true));
    [reflexivity | discriminate | reflexivity].
Defined.

(** X9. After a successful [drawCanvas] every pixel of the canvas has been
    painted exactly once, and shows the dark colour exactly when the module of
    its cell, [(px / scale - border, py / scale - border)], is dark. *)
Theorem drawCanvas_pixels (qr : QrCode.t) (scale border : Z)
    (light dark : string) (canvas : Canvas.t) (px py : Z) :
  (0 < scale)%Z -> (0 <= border)%Z -> Canvas.has2d canvas = true ->
  (0 <= px < (Z.of_nat (QrCode.size qr) + border * 2) * scale)%Z ->
  (0 <= py < (Z.of_nat (QrCode.size qr) + border * 2) * scale)%Z ->
  exists c',
    drawCanvas qr scale border light dark canvas = Canvas.Done c' /\
    length (List.filter (Canvas.covers px py) (Canvas.fills c')) = 1%nat /\
    Canvas.pixel c' px py
      = Some (if getModule_at qr (px / scale - border) (py / scale - border)
              then dark else light).
Proof.
  intros Hs Hb Hctx Hpx Hpy.
  destruct (drawCanvas_run qr scale border light dark canvas Hs Hb Hctx)
    as (c' & Hrun & Hfills & _).
  exists c'. split; [exact Hrun|].
  unfold Canvas.pixel. rewrite shown_colour, Hfills.
  rewrite (canvas_cover qr scale border light dark px py Hs Hb Hpx Hpy).
  split; reflexivity.
Qed.

Lemma drawCanvas_pixels_witness :
  exists c',
    drawCanvas grid3 10 4 "#FFFFFF" "#000000" (blank_canvas 300 150 true) = Canvas.Done c' /\
    length (List.filter (Canvas.covers 55 57) (Canvas.fills c')) = 1%nat /\
    Canvas.pixel c' 55 57 = Some "#000000"%string.
Proof.
  apply (drawCanvas_pixels grid3 10 4 "#FFFFFF" "#000000" (blank_canvas 300 150 true) 55 57);
    [reflexivity | discriminate | reflexivity | split; [discriminate | reflexivity]
     | split; [discriminate | reflexivity]].
Defined.

(** X10. The quiet zone: with the accessor answering [false] outside the grid, a
    pixel less than [border * scale] from an edge of the canvas shows the
    light colour. *)
Theorem drawCanvas_quiet_zone (qr : QrCode.t) (scale border : Z)
    (light dark : string) (canvas : Canvas.t) (px py : Z) :
  (0 < scale)%Z -> (0 <= border)%Z -> Canvas.has2d canvas = true ->
  (0 <= px < (Z.of_nat (QrCode.size qr) + border * 2) * scale)%Z ->
  (0 <= py < (Z.of_nat (QrCode.size qr) + border * 2) * scale)%Z ->
  (px < border * scale \/ (Z.of_nat (QrCode.size qr) + border) * scale <= px \/
   py < border * scale \/ (Z.of_nat (QrCode.size qr) + border) * scale <= py)%Z ->
  exists c',
    drawCanvas qr scale border light dark canvas = Canvas.Done c' /\
    Canvas.pixel c' px py = Some light.
Proof.
  intros Hs Hb Hctx Hpx Hpy Hring.
  destruct (drawCanvas_run qr scale border light dark canvas Hs Hb Hctx)
    as (c' & Hrun & Hfills & _).
  exists c'. split; [exact Hrun|].
  unfold Canvas.pixel. rewrite shown_colour, Hfills.
  rewrite (canvas_cover qr scale border light dark px py Hs Hb Hpx Hpy).
  cbn [map List.last cell_rect Canvas.style fst snd].
  replace (getModule_at qr (px / scale - border) (py / scale - border)) with false;
    [reflexivity|].
  unfold getModule_at.
  pose proof (Z.div_mod px scale ltac:(lia)) as Ex.
  pose proof (Z.mod_pos_bound px scale Hs) as Hrx.
  pose proof (Z.div_mod py scale ltac:(lia)) as Ey.
  pose proof (Z.mod_pos_bound py scale Hs) as Hry.
  destruct ((0 <=? px / scale - border) && (px / scale - border <? Z.of_nat (QrCode.size qr))
            && (0 <=? py / scale - border)
            && (py / scale - border <? Z.of_nat (QrCode.size qr)))%Z eqn:E; [|reflexivity].
  exfalso. rewrite !andb_true_iff, !Z.leb_le, !Z.ltb_lt in E. nia.
Qed.

Lemma drawCanvas_quiet_zone_witness :
  exists c',
    drawCanvas grid3 10 4 "#FFFFFF" "#000000" (blank_canvas 300 150 true) = Canvas.Done c' /\
    Canvas.pixel c' 39 57 = Some "#FFFFFF"%string.
Proof.
  apply (drawCanvas_quiet_zone grid3 10 4 "#FFFFFF" "#000000" (blank_canvas 300 150 true) 39 57);
    [reflexivity | discriminate | reflexivity | split; [discriminate | reflexivity]
     | split; [discriminate | reflexivity] | left; reflexivity].
Defined.

(** ** The payload the submit handler builds *)

Lemma FormData_get_absent data name :
  FormData_has data name = false -> FormData_get data name = JNull.
Proof.
  unfold FormData_has. induction data as [|[k v] data IH]; [reflexivity|].
  simpl. destruct (String.eqb k name); [discriminate | exact IH].
Qed.

Lemma FormData_get_set_eq data name value :
  FormData_get (FormData_set data name value) name = value.
Proof.
  induction data as [|[k v] data IH]; simpl.
  - now rewrite String.eqb_refl.
  - destruct (String.eqb k name) eqn:E; simpl.
    + now rewrite String.eqb_refl.
    + now rewrite E.
Qed.

Lemma FormData_get_set_ne data name other value :
  other <> name ->
  FormData_get (FormData_set data name value) other = FormData_get data other.
Proof.
  intros Hne. induction data as [|[k v] data IH]; simpl.
  - now rewrite (proj2 (String.eqb_neq name other)) by congruence.
  - destruct (String.eqb_spec k name) as [->|Hk]; simpl.
    + rewrite (proj2 (String.eqb_neq name other)) by congruence.
      apply FormData_get_delete_ne. exact Hne.
    + destruct (String.eqb k other); [reflexivity | exact IH].
Qed.

(** X11. The default injected by the submit handler: a form with no [security]
    entry is encoded as a WPA network, with the password segment, whatever
    else it holds. *)
Theorem onSubmit_defaults_to_WPA
    (encodeText : string -> Ecc -> JsError + QrCode.t) (form : FormData) (st : ThreeDScene) :
  FormData_has form "security" = false ->
  submitted_payload form
  = ("WIFI:S:" ++ to_string (FormData_get form "ssid")
       ++ ";T:WPA;P:" ++ to_string (FormData_get form "password")
       ++ (if truthy (FormData_get form "hidden") then ";H:true" else ""))%string /\
  onSubmit encodeText form st
  = match encodeText (submitted_payload form) LOW with
    | inl e => Throw e st
    | inr qr => Return tt (drawn qr qrBorderMm st)
    end.
Proof.
  intros Hhas. split; [|apply onSubmit_cases].
  unfold submitted_payload, getWifiEasyConnectUri, wifi_parts. rewrite Hhas. cbn [negb].
  rewrite FormData_get_set_eq.
  rewrite !(FormData_get_set_ne form "security") by discriminate.
  cbn [js_or truthy strict_neq_string String.eqb Ascii.eqb Bool.eqb negb to_string].
  destruct (truthy (FormData_get form "hidden")); cbn [app String.concat];
    rewrite ?string_app_assoc, ?string_app_nil_r; reflexivity.
Qed.

Lemma onSubmit_defaults_to_WPA_witness :
  submitted_payload home_form = "WIFI:S:Home;T:WPA;P:secret"%string.
Proof.
  exact (proj1 (onSubmit_defaults_to_WPA short_encoder home_form constructor eq_refl)).
Defined.

(** X12. [main.ts] and [main.js] build the same URI whenever the [security] entry
    is present and not empty.  When it is absent or empty they part: [main.ts]
    leaves the [T:] and [P:] segments out, [main.js] writes them, with
    "T:null" for an absent entry. *)
Theorem getWifiEasyConnectUri_ts_js (data : FormData) :
  (truthy (FormData_get data "security") = true ->
   getWifiEasyConnectUri data = getWifiEasyConnectUri_js data) /\
  (truthy (FormData_get data "security") = false ->
   wifi_parts data
   = [("S:" ++ to_string (FormData_get data "ssid"))%string]
       ++ (if truthy (FormData_get data "hidden") then ["H:true"%string] else []) /\
   wifi_parts_js data
   = [("S:" ++ to_string (FormData_get data "ssid"))%string;
      ("T:" ++ to_string (FormData_get data "security"))%string;
      ("P:" ++ to_string (FormData_get data "password"))%string]
       ++ (if truthy (FormData_get data "hidden") then ["H:true"%string] else [])) /\
  (FormData_has data "security" = false ->
   In "T:null"%string (wifi_parts_js data) /\ ~ In "T:null"%string (wifi_parts data)).
Proof.
  assert (Hfalsy : truthy (FormData_get data "security") = false ->
    wifi_parts data
    = [("S:" ++ to_string (FormData_get data "ssid"))%string]
        ++ (if truthy (FormData_get data "hidden") then ["H:true"%string] else []) /\
    wifi_parts_js data
    = [("S:" ++ to_string (FormData_get data "ssid"))%string;
       ("T:" ++ to_string (FormData_get data "security"))%string;
       ("P:" ++ to_string (FormData_get data "password"))%string]
        ++ (if truthy (FormData_get data "hidden") then ["H:true"%string] else [])).
  { intros Hf. unfold wifi_parts, wifi_parts_js, js_or. rewrite Hf.
    assert (Hneq : strict_neq_string (FormData_get data "security") "none" = true).
    { destruct (FormData_get data "security") as [|[|ch s]|f];
        [reflexivity | reflexivity | discriminate Hf | reflexivity]. }
    rewrite Hneq. cbn [strict_neq_string String.eqb Ascii.eqb Bool.eqb negb].
    destruct (truthy (FormData_get data "hidden")); split; reflexivity. }
  split; [|split; [exact Hfalsy|]].
  - intros Ht. unfold getWifiEasyConnectUri, getWifiEasyConnectUri_js,
      wifi_parts, wifi_parts_js, js_or.
    now rewrite Ht.
  - intros Hhas. pose proof (FormData_get_absent data "security" Hhas) as Hnull.
    destruct Hfalsy as [Hts Hjs]; [now rewrite Hnull|].
    rewrite Hts, Hjs, Hnull. split.
    + right. left. reflexivity.
    + intros [E|Hin].
      * discriminate E.
      * destruct (truthy (FormData_get data "hidden")); simpl in Hin;
          [destruct Hin as [E|[]]; discriminate E | contradiction].
Qed.

(** X13. A missing field does not stop the function: the literal text "null"
    takes its place.  Without an [ssid] entry the URI begins "WIFI:S:null";
    without a [password] entry, when the security segments are written, one of
    them is "P:null". *)
Theorem getWifiEasyConnectUri_missing_fields (data : FormData) :
  (FormData_has data "ssid" = false ->
   exists rest, wifi_parts data = "S:null"%string :: rest /\
     getWifiEasyConnectUri data
     = ("WIFI:S:null" ++ String.concat ";" (""%string :: rest))%string) /\
  (FormData_has data "password" = false ->
   truthy (FormData_get data "security") = true ->
   FormData_get data "security" <> JString "none" ->
   In "P:null"%string (wifi_parts data)).
Proof.
  split.
  - intros Hhas. pose proof (FormData_get_absent data "ssid" Hhas) as Hnull.
    unfold getWifiEasyConnectUri, wifi_parts. rewrite Hnull.
    destruct (strict_neq_string _ _), (truthy (FormData_get data "hidden"));
      cbn [app to_string]; eexists; (split; [reflexivity|]); reflexivity.
  - intros Hhas Ht Hnone. pose proof (FormData_get_absent data "password" Hhas) as Hnull.
    unfold wifi_parts, js_or. rewrite Ht, Hnull.
    assert (Hneq : strict_neq_string (FormData_get data "security") "none" = true).
    { destruct (FormData_get data "security") as [|s|f]; simpl; try reflexivity.
      destruct (String.eqb_spec s "none") as [->|]; [now contradiction Hnone | reflexivity]. }
    rewrite Hneq. cbn [to_string].
    destruct (truthy (FormData_get data "hidden")); simpl; auto.
Qed.

Lemma getWifiEasyConnectUri_missing_fields_witness :
  (exists rest, wifi_parts [("security"%string, JString "WEP")] = "S:null"%string :: rest /\
     getWifiEasyConnectUri [("security"%string, JString "WEP")]
     = ("WIFI:S:null" ++ String.concat ";" (""%string :: rest))%string) /\
  In "P:null"%string (wifi_parts [("security"%string, JString "WEP")]).
Proof.
  destruct (getWifiEasyConnectUri_missing_fields [("security"%string, JString "WEP")])
    as [Hssid Hpw].
  split; [apply Hssid; reflexivity | apply Hpw; [reflexivity | reflexivity | discriminate]].
Defined.

Lemma page_shows_latest_symbol_witness :
  let st := run_submits sized_encoder [none_form; long_form]
              (state_after (main sized_encoder constructor)) in
  scene st = [THREE.PointLight (THREE.Vec3 0 0 barcodeSizeMm); THREE.Group (qrGroup st)] /\
  scene_meshes st
  = built_solids (QrCode.Build 12 (fun x y => Nat.eqb x y)) qrBorderMm /\
  solids st = scene_meshes st /\
  length (scene_meshes st) = 13%nat.
Proof.
  exact (page_shows_latest_symbol sized_encoder
           (QrCode.Build 11 (fun x y => Nat.eqb x y)) [none_form; long_form] eq_refl).
Defined.
